(** * Verification of the counseling-dialogue core

    Shallow embedding of the phase/trust policy ([helpers.py]), the record
    validator and repair-retry converter ([psi_to_cactus.py]) and the
    counseling session ([camel_agent.py]).

    Conventions of the embedding.
    - A Python [str] is a [string]; every [ascii] stands for one code point
      below 256, and the character classes below are CPython's on that
      range.
    - A Python [int] is a [Z].
    - A [dict] decoded from JSON is a [gmap string json].
    - An exception is a value of type [exn]; a call that may raise returns
      [exn + A], and stateful code returns the final state next to it, since
      an exception does not roll mutations back.
    - The language-model endpoint is a function that answers each request
      with text and may depend on the requests it received earlier; the
      requests sent are kept, oldest first, next to the result. Transport
      errors of the endpoint are outside the model. *)

From Stdlib Require Import ZArith NArith Ascii String List Lia Bool.
From stdpp Require Import base option gmap strings list pretty.
From stdpp Require Import sorting.

#[local] Set Warnings "-register-all".
#[local] Open Scope string_scope.

(** ** Python string primitives *)

Module PyStr.

Definition code (c : ascii) : N := N_of_ascii c.

Definition in_range (lo hi : N) (c : ascii) : bool :=
  ((lo <=? code c) && (code c <=? hi))%N.

(** [str.isspace] on one code point: the characters [str.strip()] drops. *)
Definition is_space (c : ascii) : bool :=
  in_range 9 13 c || in_range 28 32 c || (code c =? 133)%N || (code c =? 160)%N.

(** The class [\w] of [re] on a [str] pattern: alphanumerics and [_]. *)
Definition is_word (c : ascii) : bool :=
  in_range 48 57 c || in_range 65 90 c || (code c =? 95)%N || in_range 97 122 c
  || (code c =? 170)%N || in_range 178 179 c || (code c =? 181)%N
  || in_range 185 186 c || in_range 188 190 c || in_range 192 214 c
  || in_range 216 246 c || in_range 248 255 c.

(** [str.lower] on one code point. *)
Definition lower_char (c : ascii) : ascii :=
  if in_range 65 90 c || in_range 192 214 c || in_range 216 222 c
  then ascii_of_N (code c + 32) else c.

Fixpoint lower (s : string) : string :=
  match s with
  | EmptyString => EmptyString
  | String c s' => String (lower_char c) (lower s')
  end.

Fixpoint lstrip (s : string) : string :=
  match s with
  | EmptyString => EmptyString
  | String c s' => if is_space c then lstrip s' else s
  end.

Definition is_empty (s : string) : bool :=
  match s with EmptyString => true | _ => false end.

Fixpoint rstrip (s : string) : string :=
  match s with
  | EmptyString => EmptyString
  | String c s' =>
      let r := rstrip s' in
      if is_empty r && is_space c then EmptyString else String c r
  end.

(** [s.strip()] *)
Definition strip (s : string) : string := rstrip (lstrip s).

(** Truth value of a [str]: non-empty. *)
Definition truthy (s : string) : bool := negb (is_empty s).

(** [s.startswith(p)] *)
Fixpoint startswith (p s : string) : bool :=
  match p, s with
  | EmptyString, _ => true
  | String a p', String b s' => Ascii.eqb a b && startswith p' s'
  | String _ _, EmptyString => false
  end.

(** [sep in s] *)
Fixpoint contains (sep s : string) : bool :=
  startswith sep s ||
  match s with
  | EmptyString => false
  | String _ s' => contains sep s'
  end.

(** [s[n:]] *)
Fixpoint drop (n : nat) (s : string) : string :=
  match n, s with
  | S n', String _ s' => drop n' s'
  | _, _ => s
  end.

(** The text before and after the leftmost occurrence of [sep] in [s],
    i.e. [s.split(sep, 1)] when it has two pieces. [sep] is never empty
    in the source. *)
Fixpoint cut (sep s : string) : option (string * string) :=
  if startswith sep s
  then Some (EmptyString, drop (String.length sep) s)
  else match s with
       | EmptyString => None
       | String c s' =>
           match cut sep s' with
           | Some (a, b) => Some (String c a, b)
           | None => None
           end
       end.

(** The text before and after the rightmost occurrence of [sep] in [s],
    i.e. [s.rsplit(sep, 1)] when it has two pieces. *)
Definition rcut (sep s : string) : option (string * string) :=
  match cut (String.rev sep) (String.rev s) with
  | Some (a, b) => Some (String.rev b, String.rev a)
  | None => None
  end.

(** [s.split(sep)[0]] and [s.split(sep, 1)[0]] *)
Definition before_first (sep s : string) : string :=
  match cut sep s with Some (a, _) => a | None => s end.

(** [s.split(sep)[-1]]: what follows the last piece boundary of the
    left-to-right non-overlapping split. *)
Fixpoint after_last (fuel : nat) (sep s : string) : string :=
  match fuel with
  | O => s
  | S fuel' =>
      match cut sep s with
      | Some (_, b) => after_last fuel' sep b
      | None => s
      end
  end.

(** [s.replace(c, new)] for a one-character [c]. *)
Fixpoint replace_char (c : ascii) (new s : string) : string :=
  match s with
  | EmptyString => EmptyString
  | String a s' =>
      if Ascii.eqb a c then new +:+ replace_char c new s'
      else String a (replace_char c new s')
  end.

Definition nl_char : ascii := ascii_of_nat 10.
Definition nl : string := String nl_char EmptyString.
Definition backslash_char : ascii := ascii_of_nat 92.
Definition dquote_char : ascii := ascii_of_nat 34.

(** [sep.join(parts)] *)
Fixpoint join (sep : string) (parts : list string) : string :=
  match parts with
  | [] => EmptyString
  | [p] => p
  | p :: rest => p +:+ sep +:+ join sep rest
  end.

(** [x] occurs in [s] as a contiguous piece. *)
Definition occurs_in (x s : string) : Prop :=
  exists pre post, s = pre +:+ x +:+ post.

(** A text that does not start with a blank. *)
Definition starts_clean (s : string) : Prop :=
  match s with
  | EmptyString => True
  | String c _ => is_space c = false
  end.

End PyStr.

(** ** Phase and trust policy ([helpers.py]) *)

Module Policy.
Import PyStr.

(** [PHASE_UPGRADE_AT]; a key outside the table raises [KeyError], which
    [next_phase] never triggers since it only reads its own two keys. *)
Definition PHASE_UPGRADE_AT (phase : string) : option Z :=
  if String.eqb phase "trust_building" then Some 3%Z
  else if String.eqb phase "case_conceptualization" then Some 4%Z
  else if String.eqb phase "solution_exploration" then Some 999%Z
  else None.

Definition reaches (openness : Z) (threshold : option Z) : bool :=
  match threshold with
  | Some t => (t <=? openness)%Z
  | None => false
  end.

Definition next_phase (cur : string) (openness : Z) : string :=
  if String.eqb cur "trust_building"
     && reaches openness (PHASE_UPGRADE_AT "trust_building")
  then "case_conceptualization"
  else if String.eqb cur "case_conceptualization"
          && reaches openness (PHASE_UPGRADE_AT "case_conceptualization")
  then "solution_exploration"
  else cur.

(** Position of a phase in the order
    trust_building < case_conceptualization < solution_exploration. *)
Definition phase_rank (phase : string) : option nat :=
  if String.eqb phase "trust_building" then Some 0
  else if String.eqb phase "case_conceptualization" then Some 1
  else if String.eqb phase "solution_exploration" then Some 2
  else None.

(** [a] is not after [b]: by rank on the three phases, and only by
    identity on any other string. *)
Definition phase_le (a b : string) : Prop :=
  match phase_rank a, phase_rank b with
  | Some i, Some j => i <= j
  | _, _ => a = b
  end.

(** [trust_eval_interval]; the argument is [None] for Python's [None]. *)
Definition trust_eval_interval (resistance_level : option string) : Z :=
  let lvl := lower (strip (default EmptyString resistance_level)) in
  if String.eqb lvl "beginner" then 2
  else if String.eqb lvl "intermediate" then 4
  else if String.eqb lvl "advanced" then 6
  else 2.

(** [\b] between two neighbouring positions: exactly one side is a word
    character; the outside of the text counts as a non-word character. *)
Definition word_at (c : option ascii) : bool :=
  match c with Some a => is_word a | None => false end.

Definition word_boundary (before after : option ascii) : bool :=
  xorb (word_at before) (word_at after).

Definition first_char (s : string) : option ascii :=
  match s with EmptyString => None | String c _ => Some c end.

(** The group [[1-5]] and [int] of it. *)
Definition digit_1_5 (c : ascii) : option Z :=
  if in_range 49 53 c then Some (Z.of_N (code c) - 48)%Z else None.

(** [re.search(r"\b([1-5])\b", text)]: the leftmost position where the
    pattern matches; [prev] is the character left of the position. *)
Fixpoint search_score (prev : option ascii) (text : string) : option Z :=
  match text with
  | EmptyString => None
  | String c rest =>
      match digit_1_5 c with
      | Some d =>
          if word_boundary prev (Some c)
             && word_boundary (Some c) (first_char rest)
          then Some d
          else search_score (Some c) rest
      | None => search_score (Some c) rest
      end
  end.

Definition parse_trust_score (text : string) : option Z :=
  search_score None text.

(** *** The specification's reading of a trust score *)


(** The normal form under which [trust_eval_interval] compares levels. *)
Definition normal_level (lvl : option string) : string :=
  lower (strip (default EmptyString lvl)).


End Policy.

(** ** JSON values and exceptions *)

Module Json.

(** A Python [float], by its IEEE-754 binary64 bit pattern; no operation
    below looks inside. *)
Definition pyfloat := Z.

(** The values [json.loads] produces. *)
Inductive json :=
| JNull
| JBool (b : bool)
| JInt (n : Z)
| JFloat (x : pyfloat)
| JStr (s : string)
| JArr (items : list json)
| JObj (fields : gmap string json).

(** Exceptions. [ValueError] is the one the source raises itself; the
    others come from the interpreter or from the [json] library. *)
Inductive exn :=
| ValueError (msg : string)
| KeyError (key : string)
| NotContainer (v : json)   (* TypeError of [k in v] on a scalar [v] *)
| NotSubscriptable (v : json) (* TypeError of [v[k]] with a [str] key *)
| Raised (type_name msg : string).

Definition result (A : Type) : Type := exn + A.
Definition ok {A} (a : A) : result A := inr a.
Definition raise {A} (e : exn) : result A := inl e.

Definition bind {A B} (c : result A) (k : A -> result B) : result B :=
  match c with
  | inl e => inl e
  | inr a => k a
  end.

Declare Scope result_scope.
Delimit Scope result_scope with result.
Notation "x <- c ;; k" := (bind c (fun x => k))
  (at level 100, c at next level, right associativity) : result_scope.
Notation "c ;; k" := (bind c (fun _ => k))
  (at level 100, right associativity) : result_scope.

(** [isinstance(v, str)], [isinstance(v, list)], [isinstance(v, dict)]
    and [isinstance(v, (int, float))]; a [bool] is an [int]. *)
Definition is_str (v : json) : bool :=
  match v with JStr _ => true | _ => false end.
Definition is_list (v : json) : bool :=
  match v with JArr _ => true | _ => false end.
Definition is_dict (v : json) : bool :=
  match v with JObj _ => true | _ => false end.
Definition is_number (v : json) : bool :=
  match v with JInt _ | JFloat _ | JBool _ => true | _ => false end.

(** [k == v] for a [str] [k]. *)
Definition equals_str (k : string) (v : json) : bool :=
  match v with JStr s => String.eqb k s | _ => false end.

(** [k in obj] for a [str] [k]: key of a dict, element of a list,
    substring of a string; a [TypeError] on anything else. *)
Definition py_in (k : string) (obj : json) : result bool :=
  match obj with
  | JObj m => ok (bool_decide (is_Some (m !! k)))
  | JArr items => ok (existsb (equals_str k) items)
  | JStr s => ok (PyStr.contains k s)
  | _ => raise (NotContainer obj)
  end.

(** [obj[k]] for a [str] [k]. *)
Definition subscript (obj : json) (k : string) : result json :=
  match obj with
  | JObj m =>
      match m !! k with
      | Some v => ok v
      | None => raise (KeyError k)
      end
  | _ => raise (NotSubscriptable obj)
  end.

End Json.

(** ** Record validator and repair-retry converter ([psi_to_cactus.py]) *)

Module PsiToCactus.
Import PyStr Json.
#[local] Open Scope result_scope.

(** [isinstance(v, str) and v.strip()] *)
Definition nonblank_str (v : json) : bool :=
  match v with JStr s => truthy (strip s) | _ => false end.

(** [any((not isinstance(x, str) or not x.strip()) for x in items)] *)
Definition any_bad_item (items : list json) : bool :=
  existsb (fun x => negb (nonblank_str x)) items.

Definition required_top : list string :=
  ["thought"; "patterns"; "intake_form"; "cbt_technique"; "cbt_plan"].

Definition ci_required : list string :=
  ["name"; "age"; "gender"; "occupation"; "education"; "marital_status";
   "family_details"].

Definition list_fields : list (string * nat) :=
  [("presenting_problem", 3); ("past_history", 1);
   ("academic_occupational_functioning_level", 1)].

Definition plan_keys : list string := ["1"; "2"; "3"; "4"; "5"].

(** The loop over [required_top]. *)
Fixpoint check_top (keys : list string) (obj : json) : result unit :=
  match keys with
  | [] => ok tt
  | k :: keys' =>
      present <- py_in k obj ;;
      if present then check_top keys' obj
      else raise (ValueError ("Missing top-level key: " +:+ k))
  end.

Definition check_thought (obj : json) : result unit :=
  v <- subscript obj "thought" ;;
  if nonblank_str v then ok tt
  else raise (ValueError "thought must be a non-empty string").

Definition check_patterns (obj : json) : result unit :=
  v <- subscript obj "patterns" ;;
  match v with
  | JArr (x :: rest) =>
      if any_bad_item (x :: rest)
      then raise (ValueError "patterns must contain only non-empty strings")
      else ok tt
  | _ => raise (ValueError "patterns must be a non-empty list of strings")
  end.

(** The loop over [ci_required]. *)
Fixpoint check_client_info (keys : list string) (ci : gmap string json)
  : result unit :=
  match keys with
  | [] => ok tt
  | k :: keys' =>
      match ci !! k with
      | None =>
          raise (ValueError ("Missing intake_form.client_info key: " +:+ k))
      | Some v =>
          (if String.eqb k "age"
           then if is_number v then ok tt
                else raise (ValueError "client_info.age must be a number")
           else if nonblank_str v then ok tt
                else raise (ValueError ("client_info." +:+ k +:+
                                        " must be a non-empty string"))) ;;
          check_client_info keys' ci
      end
  end.

(** The loop over [list_fields]. *)
Fixpoint check_list_fields (fields : list (string * nat))
    (intake : gmap string json) : result unit :=
  match fields with
  | [] => ok tt
  | (field, min_len) :: fields' =>
      match intake !! field with
      | Some (JArr items) =>
          if (length items <? min_len)%nat
          then raise (ValueError ("intake_form." +:+ field +:+
                 " must be a list with at least " +:+ pretty min_len +:+
                 " items"))
          else if any_bad_item items
          then raise (ValueError ("intake_form." +:+ field +:+
                 " must contain only non-empty strings"))
          else check_list_fields fields' intake
      | _ =>
          raise (ValueError ("intake_form." +:+ field +:+
            " must be a list with at least " +:+ pretty min_len +:+
            " items"))
      end
  end.

(** A required non-blank string field of the intake form. *)
Definition check_text_field (field : string) (intake : gmap string json)
  : result unit :=
  match intake !! field with
  | Some v =>
      if nonblank_str v then ok tt
      else raise (ValueError ("intake_form." +:+ field +:+
                               " must be a non-empty string"))
  | None =>
      raise (ValueError ("intake_form." +:+ field +:+
                         " must be a non-empty string"))
  end.

Definition check_intake (obj : json) : result unit :=
  intake <- subscript obj "intake_form" ;;
  match intake with
  | JObj im =>
      match im !! "client_info" with
      | Some (JObj ci) =>
          check_client_info ci_required ci ;;
          check_list_fields list_fields im ;;
          check_text_field "reason_for_seeking_counseling" im ;;
          check_text_field "social_support_system" im
      | _ => raise (ValueError "intake_form.client_info must be an object")
      end
  | _ => raise (ValueError "intake_form must be an object")
  end.

Definition check_technique (obj : json) : result unit :=
  v <- subscript obj "cbt_technique" ;;
  if nonblank_str v then ok tt
  else raise (ValueError "cbt_technique must be a non-empty string").

(** The loop over the keys 1 to 5 of the plan. *)
Fixpoint check_plan_keys (keys : list string) (plan : gmap string json)
  : result unit :=
  match keys with
  | [] => ok tt
  | k :: keys' =>
      match plan !! k with
      | Some v =>
          if nonblank_str v then check_plan_keys keys' plan
          else raise (ValueError
                 "cbt_plan must contain non-empty strings for keys '1'..'5'")
      | None =>
          raise (ValueError
            "cbt_plan must contain non-empty strings for keys '1'..'5'")
      end
  end.

Definition check_plan (obj : json) : result unit :=
  plan <- subscript obj "cbt_plan" ;;
  match plan with
  | JObj pm => check_plan_keys plan_keys pm
  | _ => raise (ValueError "cbt_plan must be an object")
  end.

Definition _validate_cactus_shape (obj : json) : result unit :=
  check_top required_top obj ;;
  check_thought obj ;;
  check_patterns obj ;;
  check_intake obj ;;
  check_technique obj ;;
  check_plan obj.

(** What the validator has established when it returns. *)
Record accepted (m : gmap string json) : Prop := Accepted {
  acc_thought : exists v, m !! "thought" = Some v /\ nonblank_str v = true;
  acc_patterns : exists x rest,
    m !! "patterns" = Some (JArr (x :: rest)) /\
    any_bad_item (x :: rest) = false;
  acc_intake : exists im ci,
    m !! "intake_form" = Some (JObj im) /\
    im !! "client_info" = Some (JObj ci) /\
    check_client_info ci_required ci = ok tt /\
    check_list_fields list_fields im = ok tt /\
    check_text_field "reason_for_seeking_counseling" im = ok tt /\
    check_text_field "social_support_system" im = ok tt;
  acc_technique : exists v,
    m !! "cbt_technique" = Some v /\ nonblank_str v = true;
  acc_plan : exists pm,
    m !! "cbt_plan" = Some (JObj pm) /\ check_plan_keys plan_keys pm = ok tt;
}.

(** *** What the interpreter and the [json] library contribute

    [json_loads] is [json.loads]: it returns any JSON value or raises.
    [json_dumps] is [json.dumps(_, ensure_ascii=False, indent=2)].
    [type_error_text] is the wording the interpreter gives a [TypeError]. *)
Class PyRuntime := {
  json_loads : string -> result json;
  json_dumps : json -> string;
  type_error_text : exn -> string;
}.

Section Converter.
Context `{PyRuntime}.

(** [type(e).__name__] *)
Definition exc_name (e : exn) : string :=
  match e with
  | ValueError _ => "ValueError"
  | KeyError _ => "KeyError"
  | NotContainer _ | NotSubscriptable _ => "TypeError"
  | Raised type_name _ => type_name
  end.

(** [str(e)] *)
Definition exc_str (e : exn) : string :=
  match e with
  | ValueError msg => msg
  | KeyError key => "'" +:+ key +:+ "'"
  | NotContainer _ | NotSubscriptable _ => type_error_text e
  | Raised _ msg => msg
  end.

(** [type(e).__name__], a colon and [str(e)]: the text kept as [last_err]. *)
Definition error_text (e : exn) : string :=
  exc_name e +:+ ": " +:+ exc_str e.

(** [_parse_json_strict]: [cut] answers both the membership test and
    the split of each fence line. *)
Definition _parse_json_strict (text : string) : result json :=
  let t := strip text in
  let t :=
    if startswith "```" t then
      let t1 := match cut nl t with
                | Some (_, rest) => rest
                | None => EmptyString
                end in
      let t2 := match rcut "```" t1 with
                | Some (body, _) => body
                | None => t1
                end in
      strip t2
    else t in
  json_loads t.

(** One request to the gateway, by its keyword arguments. *)
Record llm_call := {
  system_prompt : string;
  user_prompt : string;
  temperature : pyfloat;
  model : string;
}.

(** A gateway answers a request with text; a stub may answer by the
    requests it has received before. *)
Definition gateway := list llm_call -> llm_call -> string.

(** The body of the [try]. *)
Definition parse_and_validate (response : string) : result json :=
  obj <- _parse_json_strict response ;;
  _validate_cactus_shape obj ;;
  ok obj.

(** [f"{last_err}"] *)
Definition show_last_err (last_err : option string) : string :=
  default "None" last_err.

Definition repair_user (last_err : option string) : string :=
  "Your previous output failed validation." +:+ nl +:+
  "ERROR:" +:+ nl +:+ show_last_err last_err +:+ nl +:+ nl +:+
  "Return ONLY corrected JSON that matches the required schema exactly. No markdown.".

Definition repair_prompt (last_err : option string) (user : string)
  : string :=
  repair_user last_err +:+ nl +:+ nl +:+ "ORIGINAL PSI CASE:" +:+ nl +:+ user.

Definition conversion_failed (last_err : option string) : exn :=
  ValueError ("LLM output could not be validated after retries. Last error: "
              +:+ show_last_err last_err).

Section Loop.
Variable call_llm_fn : gateway.
Variables (sys user : string) (temp : pyfloat) (mdl : string).

Definition request (attempt : nat) (last_err : option string) : llm_call :=
  {| system_prompt := sys;
     user_prompt := match attempt with
                    | O => user
                    | S _ => repair_prompt last_err user
                    end;
     temperature := temp;
     model := mdl |}.

(** The [for] loop with [remaining] iterations left, from iteration
    [attempt]; [calls] are the requests sent so far, oldest first.
    The result comes with the requests sent in all. *)
Fixpoint attempts (remaining attempt : nat) (last_err : option string)
    (calls : list llm_call) : result json * list llm_call :=
  match remaining with
  | O => (raise (conversion_failed last_err), calls)
  | S remaining' =>
      let req := request attempt last_err in
      let response := call_llm_fn calls req in
      let calls' := (calls ++ [req])%list in
      match parse_and_validate response with
      | inr obj => (ok obj, calls')
      | inl e =>
          attempts remaining' (S attempt)
            (Some (error_text e)) calls'
      end
  end.
End Loop.

(** [psi_case_to_cactus]: the record or the exception, and the requests
    the gateway received. *)
Definition psi_case_to_cactus (psi_case : json) (call_llm_fn : gateway)
    (system_prompt : string) (temperature : pyfloat) (model : string)
    (max_retries : Z) : result json * list llm_call :=
  let user_prompt := json_dumps psi_case in
  attempts call_llm_fn system_prompt user_prompt temperature model
    (Z.to_nat (max_retries + 1)) 0 None [].

(** *** A gateway that may raise

    [call_llm_fn(...)] stands before the [try] of the loop body: when the
    gateway raises instead of answering, as [call_llm] does on a
    transport error, nothing catches the exception and it ends the
    conversion at that request. *)
Definition raising_gateway := list llm_call -> llm_call -> result string.

(** A gateway that always answers, seen as one that may raise. *)
Definition answering (call_llm_fn : gateway) : raising_gateway :=
  fun calls req => ok (call_llm_fn calls req).

(** The [for] loop over a gateway that may raise. *)
Fixpoint attempts_raising (call_llm_fn : raising_gateway)
    (sys user : string) (temp : pyfloat) (mdl : string)
    (remaining attempt : nat) (last_err : option string)
    (calls : list llm_call) : result json * list llm_call :=
  match remaining with
  | O => (raise (conversion_failed last_err), calls)
  | S remaining' =>
      let req := request sys user temp mdl attempt last_err in
      let calls' := (calls ++ [req])%list in
      match call_llm_fn calls req with
      | inl e => (raise e, calls')
      | inr response =>
          match parse_and_validate response with
          | inr obj => (ok obj, calls')
          | inl e =>
              attempts_raising call_llm_fn sys user temp mdl remaining'
                (S attempt) (Some (error_text e)) calls'
          end
      end
  end.

(** [psi_case_to_cactus] over a gateway that may raise. *)
Definition psi_case_to_cactus_raising (psi_case : json)
    (call_llm_fn : raising_gateway) (system_prompt : string)
    (temperature : pyfloat) (model : string) (max_retries : Z)
  : result json * list llm_call :=
  let user_prompt := json_dumps psi_case in
  attempts_raising call_llm_fn system_prompt user_prompt temperature model
    (Z.to_nat (max_retries + 1)) 0 None [].

End Converter.

End PsiToCactus.

(** ** The target schema, as the specification words it *)

Module Schema.
Import PyStr Json.

Section Reading.
(** What counts as a non-empty string. *)
Variable text_ok : json -> bool.

Definition has_text (m : gmap string json) (k : string) : bool :=
  match m !! k with
  | Some v => text_ok v
  | None => false
  end.

(** A list of at least [min_len] items, each a non-empty string. *)
Definition has_texts (m : gmap string json) (k : string) (min_len : nat)
  : bool :=
  match m !! k with
  | Some (JArr items) => (min_len <=? length items)%nat && forallb text_ok items
  | _ => false
  end.

Definition numeric (v : json) : bool :=
  match v with JInt _ | JFloat _ => true | _ => false end.

(** The seven required fields: age numeric, the others non-empty
    strings. *)
Definition client_info_ok (v : json) : bool :=
  match v with
  | JObj ci =>
      has_text ci "name"
      && match ci !! "age" with Some a => numeric a | None => false end
      && has_text ci "gender" && has_text ci "occupation"
      && has_text ci "education" && has_text ci "marital_status"
      && has_text ci "family_details"
  | _ => false
  end.

Definition intake_form_ok (v : json) : bool :=
  match v with
  | JObj im =>
      match im !! "client_info" with
      | Some ci => client_info_ok ci
      | None => false
      end
      && has_texts im "presenting_problem" 3
      && has_texts im "past_history" 1
      && has_texts im "academic_occupational_functioning_level" 1
      && has_text im "reason_for_seeking_counseling"
      && has_text im "social_support_system"
  | _ => false
  end.

(** Exactly the keys 1 to 5, each a non-empty string. *)
Definition cbt_plan_ok (v : json) : bool :=
  match v with
  | JObj pm =>
      bool_decide (dom pm = ({["1"; "2"; "3"; "4"; "5"]} : gset string))
      && has_text pm "1" && has_text pm "2" && has_text pm "3"
      && has_text pm "4" && has_text pm "5"
  | _ => false
  end.

Definition satisfies_schema (obj : json) : bool :=
  match obj with
  | JObj m =>
      has_text m "thought"
      && has_texts m "patterns" 1
      && match m !! "intake_form" with
         | Some v => intake_form_ok v
         | None => false
         end
      && has_text m "cbt_technique"
      && match m !! "cbt_plan" with
         | Some v => cbt_plan_ok v
         | None => false
         end
  | _ => false
  end.
End Reading.

(** A string with at least one character. *)
Definition nonempty_text (v : json) : bool :=
  match v with JStr s => negb (is_empty s) | _ => false end.

Fixpoint has_visible_char (s : string) : bool :=
  match s with
  | EmptyString => false
  | String c s' => negb (is_space c) || has_visible_char s'
  end.

(** A string with at least one character that is not a blank. *)
Definition visible_text (v : json) : bool :=
  match v with JStr s => has_visible_char s | _ => false end.

End Schema.

(** ** Edits of a record, and sample records *)

Module Records.
Import PyStr Json.

(** The record with its intake form edited by [f]. *)
Definition in_intake (f : gmap string json -> gmap string json)
    (m : gmap string json) : gmap string json :=
  match m !! "intake_form" with
  | Some (JObj im) => <["intake_form" := JObj (f im)]> m
  | _ => m
  end.

(** The intake form with its client information edited by [f]. *)
Definition in_client_info (f : gmap string json -> gmap string json)
    (im : gmap string json) : gmap string json :=
  match im !! "client_info" with
  | Some (JObj ci) => <["client_info" := JObj (f ci)]> im
  | _ => im
  end.

(** The record with [pm] as its plan. *)
Definition with_plan (pm : gmap string json) (m : gmap string json)
  : gmap string json :=
  <["cbt_plan" := JObj pm]> m.

(** The validator raised [ValueError(msg)], and [msg] names [field]. *)
Definition raises_naming (field msg : string) (r : result unit) : Prop :=
  r = raise (ValueError msg) /\ PyStr.occurs_in field msg.

Definition texts (l : list string) : json := JArr (map JStr l).

Definition sample_client_info : gmap string json :=
  list_to_map
    [("name", JStr "Laura"); ("age", JInt 45); ("gender", JStr "female");
     ("occupation", JStr "Office Job");
     ("education", JStr "College Graduate");
     ("marital_status", JStr "Single");
     ("family_details", JStr "Lives alone")].

Definition sample_intake : gmap string json :=
  list_to_map
    [("client_info", JObj sample_client_info);
     ("presenting_problem",
      texts ["anxious at work"; "cannot sleep"; "overwhelmed"]);
     ("past_history", texts ["no earlier treatment"]);
     ("academic_occupational_functioning_level", texts ["declining"]);
     ("reason_for_seeking_counseling", JStr "I feel anxious at work.");
     ("social_support_system", JStr "Two close friends")].

Definition sample_plan : gmap string json :=
  list_to_map
    [("1", JStr "Identify the thought"); ("2", JStr "Challenge it");
     ("3", JStr "Reframe"); ("4", JStr "Practice"); ("5", JStr "Review")].

Definition sample_record : gmap string json :=
  list_to_map
    [("thought", JStr "I will mess everything up");
     ("patterns", texts ["catastrophizing"]);
     ("intake_form", JObj sample_intake);
     ("cbt_technique", JStr "Decatastrophizing");
     ("cbt_plan", JObj sample_plan)].

(** The sample with a thought made of one blank. *)
Definition blank_thought_record : gmap string json :=
  <["thought" := JStr " "]> sample_record.

(** The sample plan with a sixth step. *)
Definition six_step_plan : gmap string json :=
  <["6" := JStr "Follow up"]> sample_plan.

End Records.

(** ** Counseling session ([camel_agent.py]) *)

Module CamelAgent.
Import PyStr Json.

(** The two speakers of a history entry. *)
Inductive role := Counselor | Client.

(** [m['role'].capitalize()]: both role names are already capitalised. *)
Definition role_label (r : role) : string :=
  match r with
  | Counselor => "Counselor"
  | Client => "Client"
  end.

(** A history entry [{"role": ..., "message": ...}]. *)
Record turn := { turn_role : role; message : string }.

Definition _history_to_text (history : list turn) : string :=
  join nl (map (fun m => role_label (turn_role m) +:+ ": " +:+ message m)
               history).

(** [CBT_PLAN_PROMPT] with its three fields filled in. *)
Definition format_plan_prompt (client_information reason history : string)
  : string :=
  "<|start_header_id|>system<|end_header_id|>

You are a counselor specializing in CBT techniques. Your task is to use the provided client information, and dialogue to generate an appropriate CBT technique and a detailed counseling plan.<|eot_id|><|start_header_id|>user<|end_header_id|>

Types of CBT Techniques:
Efficiency Evaluation, Pie Chart Technique, Alternative Perspective, Decatastrophizing, Pros and Cons Analysis, Evidence-Based Questioning, Reality Testing, Continuum Technique, Changing Rules to Wishes, Behavior Experiment, Problem-Solving Skills Training, Systematic Exposure

Client Information:
" +:+ client_information +:+ "

Reason for seeking counseling:
" +:+ reason +:+ "

Counseling Dialogue:
" +:+ history +:+ "

Choose an appropriate CBT technique and create a counseling plan based on that technique.<|eot_id|><|start_header_id|>assistant<|end_header_id|>".

(** [RESPONSE_PROMPT] with its four fields filled in. *)
Definition format_response_prompt
    (client_information reason cbt_plan history : string) : string :=
  "<|start_header_id|>system<|end_header_id|>

You are playing the role of a counselor in a psychological counseling session. Your task is to use the provided client information and counseling planning to generate the next counselor utterance in the dialogue. The goal is to create a natural and engaging response that builds on the previous conversation and aligns with the counseling plan.<|eot_id|><|start_header_id|>user<|end_header_id|>

Client Information:
" +:+ client_information +:+ "

Reason for seeking counseling:
" +:+ reason +:+ "

Counseling planning:
" +:+ cbt_plan +:+ "

Counseling Dialogue:
" +:+ history +:+ "<|eot_id|><|start_header_id|>assistant<|end_header_id|>
".

(** [x or None] and [x or ""] on an optional text. *)
Definition or_none (s : string) : option string :=
  if truthy s then Some s else None.

Definition or_empty (o : option string) : string := default EmptyString o.

(** Truth value of an optional text: set and non-empty. *)
Definition is_set (o : option string) : bool :=
  match o with
  | Some s => truthy s
  | None => false
  end.

(** The parsing half of [CBTPlannerAgent.generate_plan]: technique and
    plan read off the raw completion. Neither step can raise: without
    the delimiter the subscript [[1]] fails and the fallback applies. *)
Definition parse_plan (raw : string) : option string * option string :=
  let cbt_technique :=
    or_none (strip (replace_char nl_char EmptyString
                      (before_first "Counseling" raw))) in
  let cbt_plan :=
    match cut ("Counseling planning:" +:+ nl) raw with
    | Some (_, rest) => Some (strip (before_first (nl +:+ "CBT") rest))
    | None => if truthy raw then Some (strip raw) else None
    end in
  (cbt_technique, cbt_plan).

(** The clean-up half of [CounselorAgent.next_utterance]. *)
Definition clean_utterance (raw : string) : string :=
  let text :=
    match cut "'message':" raw with
    | Some (_, rest) => before_first ", {" rest
    | None => raw
    end in
  strip
    (replace_char dquote_char EmptyString
       (replace_char backslash_char EmptyString
          (replace_char nl_char " "
             (after_last (String.length text) "Counselor:" text)))).

(** The fields of [CamelCounselingSession]. *)
Record session := {
  vllm_server : string;
  model_id : string;
  max_tokens : Z;
  temperature : pyfloat;
  intake_form : option string;
  reason : option string;
  cbt_technique : option string;
  cbt_plan : option string;
  history : list turn;
}.

Definition set_plan (technique : option string) (plan : string)
    (s : session) : session :=
  {| vllm_server := vllm_server s; model_id := model_id s;
     max_tokens := max_tokens s; temperature := temperature s;
     intake_form := intake_form s; reason := reason s;
     cbt_technique := technique; cbt_plan := Some plan;
     history := history s |}.

Definition set_history (h : list turn) (s : session) : session :=
  {| vllm_server := vllm_server s; model_id := model_id s;
     max_tokens := max_tokens s; temperature := temperature s;
     intake_form := intake_form s; reason := reason s;
     cbt_technique := cbt_technique s; cbt_plan := cbt_plan s;
     history := h |}.

Definition set_intake (intake reason_text : string) (s : session) : session :=
  {| vllm_server := vllm_server s; model_id := model_id s;
     max_tokens := max_tokens s; temperature := temperature s;
     intake_form := Some intake; reason := Some reason_text;
     cbt_technique := cbt_technique s; cbt_plan := cbt_plan s;
     history := history s |}.

(** The completion endpoint behind [llm.invoke]: the text it returns for
    a prompt, possibly depending on the prompts it was sent before. *)
Definition endpoint := list string -> string -> string.

(** What a method leaves behind: the session and the prompts sent to the
    endpoint so far, oldest first. *)
Definition world : Type := session * list string.

Section Session.
Variable llm_invoke : endpoint.

Definition ensure_plan (w : world) : result unit * world :=
  let '(s, sent) := w in
  if negb (is_set (intake_form s)) || negb (is_set (reason s)) then
    (raise (ValueError "intake_form and reason must be set before planning."),
     w)
  else if is_set (cbt_plan s) then (ok tt, w)
  else
    let prompt :=
      format_plan_prompt (or_empty (intake_form s)) (or_empty (reason s))
        (_history_to_text (history s)) in
    let raw := llm_invoke sent prompt in
    let '(technique, plan) := parse_plan raw in
    (ok tt, (set_plan technique (or_empty plan) s, (sent ++ [prompt])%list)).

Definition next_utterance (cbt_plan_text : string) (s : session)
    (sent : list string) : string * list string :=
  let prompt :=
    format_response_prompt (or_empty (intake_form s)) (or_empty (reason s))
      cbt_plan_text (_history_to_text (history s)) in
  (clean_utterance (llm_invoke sent prompt), (sent ++ [prompt])%list).

Definition step (client_message : string) (w : world)
  : result string * world :=
  let '(s, sent) := w in
  if negb (is_set (intake_form s)) || negb (is_set (reason s)) then
    (raise (ValueError "Call start() or set intake_form/reason first."), w)
  else
    let '(planned, w1) :=
      if is_set (cbt_plan s) then (ok tt, w) else ensure_plan w in
    match planned with
    | inl e => (inl e, w1)
    | inr _ =>
        let '(s1, sent1) := w1 in
        let s2 :=
          set_history
            (history s1 ++ [{| turn_role := Client;
                               message := client_message |}])%list s1 in
        let '(reply, sent2) :=
          next_utterance (or_empty (cbt_plan s2)) s2 sent1 in
        (ok reply,
         (set_history
            (history s2 ++ [{| turn_role := Counselor;
                               message := reply |}])%list s2,
          sent2))
    end.

Definition greeting : string :=
  "Hi, it's nice to meet you. How can I assist you today?".

Definition start (intake reason_text first_client_message : string)
    (w : world) : result unit * world :=
  let '(s, sent) := w in
  let s1 := set_intake intake reason_text s in
  let opening := [{| turn_role := Counselor; message := greeting |}] in
  let h :=
    if truthy first_client_message
    then (opening ++ [{| turn_role := Client;
                         message := first_client_message |}])%list
    else opening in
  ensure_plan (set_history h s1, sent).

End Session.

(** *** An endpoint that may raise

    [llm.invoke] raises when the server cannot be reached or refuses the
    request. Nothing in the agents or in the session catches that
    exception: it leaves the method at the call, with whatever the
    method had already written to the session. *)
Definition raising_endpoint := list string -> string -> result string.

(** An endpoint that always answers, seen as one that may raise. *)
Definition answering_endpoint (llm_invoke : endpoint) : raising_endpoint :=
  fun sent prompt => ok (llm_invoke sent prompt).

Section RaisingSession.
Variable llm_invoke : raising_endpoint.

(** [ensure_plan]: when the planner's call raises, neither technique nor
    plan has been assigned. *)
Definition ensure_plan_raising (w : world) : result unit * world :=
  let '(s, sent) := w in
  if negb (is_set (intake_form s)) || negb (is_set (reason s)) then
    (raise (ValueError "intake_form and reason must be set before planning."),
     w)
  else if is_set (cbt_plan s) then (ok tt, w)
  else
    let prompt :=
      format_plan_prompt (or_empty (intake_form s)) (or_empty (reason s))
        (_history_to_text (history s)) in
    match llm_invoke sent prompt with
    | inl e => (raise e, (s, (sent ++ [prompt])%list))
    | inr raw =>
        let '(technique, plan) := parse_plan raw in
        (ok tt,
         (set_plan technique (or_empty plan) s, (sent ++ [prompt])%list))
    end.

(** [step]: the client message is appended before the counselor's call,
    so it stays in the history when that call raises. *)
Definition step_raising (client_message : string) (w : world)
  : result string * world :=
  let '(s, sent) := w in
  if negb (is_set (intake_form s)) || negb (is_set (reason s)) then
    (raise (ValueError "Call start() or set intake_form/reason first."), w)
  else
    let '(planned, w1) :=
      if is_set (cbt_plan s) then (ok tt, w) else ensure_plan_raising w in
    match planned with
    | inl e => (inl e, w1)
    | inr _ =>
        let '(s1, sent1) := w1 in
        let s2 :=
          set_history
            (history s1 ++ [{| turn_role := Client;
                               message := client_message |}])%list s1 in
        let prompt :=
          format_response_prompt (or_empty (intake_form s2))
            (or_empty (reason s2)) (or_empty (cbt_plan s2))
            (_history_to_text (history s2)) in
        match llm_invoke sent1 prompt with
        | inl e => (raise e, (s2, (sent1 ++ [prompt])%list))
        | inr raw =>
            let reply := clean_utterance raw in
            (ok reply,
             (set_history
                (history s2 ++ [{| turn_role := Counselor;
                                   message := reply |}])%list s2,
              (sent1 ++ [prompt])%list))
        end
    end.

End RaisingSession.

End CamelAgent.

(** ** Test doubles *)

Module Doubles.
Import PyStr Json PsiToCactus Records.

Definition sample_document : string := "<the sample record>".

(** A decoder that knows one document and refuses every other text the
    way [json.loads] refuses a text that starts with no JSON value. *)
Definition stub_runtime : PyRuntime :=
  {| json_loads t :=
       if String.eqb t sample_document then ok (JObj sample_record)
       else raise (Raised "JSONDecodeError"
                     "Expecting value: line 1 column 1 (char 0)");
     json_dumps _ := "<the case>";
     type_error_text _ := "unsupported operand" |}.


(** A gateway stub whose first answer is no record and whose later
    answers are the sample document inside a fence. *)
Definition repairing_gateway : gateway :=
  fun earlier _ =>
    match earlier with
    | [] => "Sure! Here is the record."
    | _ => "```json" +:+ nl +:+ sample_document +:+ nl +:+ "```"
    end.

(** A gateway stub whose first answer is no record and whose later
    answers are the sample document as plain JSON text. *)
Definition plain_repairing_gateway : gateway :=
  fun earlier _ =>
    match earlier with
    | [] => "Sure! Here is the record."
    | _ => sample_document
    end.

(** A gateway stub that answers the first request with no record and
    fails on every later one, as a client does when the connection is
    lost. *)
Definition disconnecting_gateway : raising_gateway :=
  fun earlier _ =>
    match earlier with
    | [] => ok "I cannot help with that."
    | _ => raise (Raised "APIConnectionError" "Connection error.")
    end.

(** An endpoint stub: a plan for the first prompt, a counselor line for
    every later one. *)
Definition scripted_endpoint : CamelAgent.endpoint :=
  fun sent _ =>
    match sent with
    | [] => "Decatastrophizing" +:+ nl +:+ "Counseling planning:" +:+ nl +:+
            "Name the feared outcome, then weigh the evidence." +:+ nl +:+
            "CBT"
    | _ => "Counselor: That sounds hard. What went through your mind?"
    end.


(** A session as its constructor leaves it. *)
Definition fresh_session : CamelAgent.session :=
  {| CamelAgent.vllm_server := "http://127.0.0.1:8000/v1";
     CamelAgent.model_id := "LangAGI-Lab/camel";
     CamelAgent.max_tokens := 512;
     CamelAgent.temperature := 0%Z;
     CamelAgent.intake_form := None;
     CamelAgent.reason := None;
     CamelAgent.cbt_technique := None;
     CamelAgent.cbt_plan := None;
     CamelAgent.history := [] |}.

(** The fresh session after [start] against the scripted endpoint. *)
Definition started_world : CamelAgent.world :=
  snd (CamelAgent.start scripted_endpoint
         ("Name: Laura" +:+ nl +:+ "Age: 45")
         "I feel anxious and overwhelmed at work." EmptyString
         (fresh_session, [])).

End Doubles.

(** ** Case lookup and the file-level conversion ([psi_to_cactus.py]) *)

Module Cases.
Import PyStr Json PsiToCactus.
#[local] Open Scope result_scope.

(** What the interpreter writes for values whose text is not modelled:
    [str] of a float, a list or a dict, and the [repr] of a list of
    strings inside an f-string. *)
Class PyRepr := {
  value_text : json -> string;
  str_list_text : list string -> string;
}.

(** [[x for x in items if isinstance(x, dict)]] *)
Definition dicts_of (items : list json) : list (gmap string json) :=
  omap (fun x => match x with JObj m => Some m | _ => None end) items.

Definition container_keys : list string :=
  ["cases"; "patients"; "data"; "items"; "examples"].

(** The loop over the container keys of a dict: the first key that holds
    a list gives the cases. *)
Fixpoint first_container (keys : list string) (m : gmap string json)
  : option (list (gmap string json)) :=
  match keys with
  | [] => None
  | key :: keys' =>
      match m !! key with
      | Some (JArr items) => Some (dicts_of items)
      | _ => first_container keys' m
      end
  end.

Definition _ensure_list_of_cases (data : json)
  : result (list (gmap string json)) :=
  match data with
  | JArr items => ok (dicts_of items)
  | JObj m =>
      match first_container container_keys m with
      | Some cases => ok cases
      | None =>
          match m !! "id" with
          | Some (JStr _) => ok [m]
          | _ => raise (ValueError
                   "Could not interpret PSI JSON as a list of cases.")
          end
      end
  | _ => raise (ValueError "Could not interpret PSI JSON as a list of cases.")
  end.

Section WithRepr.
Context `{PyRepr}.

(** [str(v)] *)
Definition py_str (v : json) : string :=
  match v with
  | JNull => "None"
  | JBool true => "True"
  | JBool false => "False"
  | JInt n => pretty n
  | JStr s => s
  | JFloat _ | JArr _ | JObj _ => value_text v
  end.

(** [str(c.get("id", "")).strip()] *)
Definition case_key (c : gmap string json) : string :=
  strip (py_str (default (JStr EmptyString) (c !! "id"))).

(** The ids shown when a lookup fails: the text of every id that is not
    [None], without repeats, in increasing order, the first 20. *)
Definition known_ids (cases : list (gmap string json)) : list string :=
  omap (fun c : gmap string json =>
          match c !! "id" with
          | Some JNull | None => None
          | Some v => Some (py_str v)
          end) cases.

Definition available_ids (cases : list (gmap string json)) : list string :=
  take 20 (merge_sort String.le (remove_dups (known_ids cases))).

Definition not_found (case_id : string) (cases : list (gmap string json))
  : exn :=
  KeyError ("Case id '" +:+ case_id +:+ "' not found. Available ids include: "
            +:+ str_list_text (available_ids cases) +:+ " ...").

(** The [for] loop of [get_case_by_id] over the cases still to visit;
    [all_cases] is the whole list, for the error message. *)
Fixpoint find_case (all_cases rest : list (gmap string json))
    (case_id : string) : result (gmap string json) :=
  match rest with
  | [] => raise (not_found case_id all_cases)
  | c :: rest' =>
      if String.eqb (case_key c) (strip case_id) then ok c
      else find_case all_cases rest' case_id
  end.

Definition get_case_by_id (cases : list (gmap string json))
    (case_id : string) : result (gmap string json) :=
  find_case cases cases case_id.

(** [convert_psi_file_case_id_to_cactus]. The two file readers are
    parameters: each returns the content of a path or raises. The
    converter runs with its default of 2 retries. *)
Section FromFiles.
Context `{PyRuntime}.
Variable load_json : string -> result json.
Variable load_text : string -> result string.

Definition convert_psi_file_case_id_to_cactus
    (psi_json_path case_id system_prompt_path : string)
    (call_llm_fn : gateway) (temperature : pyfloat) (model : string)
  : result json * list llm_call :=
  match load_json psi_json_path with
  | inl e => (inl e, [])
  | inr data =>
      match _ensure_list_of_cases data with
      | inl e => (inl e, [])
      | inr cases =>
          match get_case_by_id cases case_id with
          | inl e => (inl e, [])
          | inr psi_case =>
              match load_text system_prompt_path with
              | inl e => (inl e, [])
              | inr system_prompt =>
                  psi_case_to_cactus (JObj psi_case) call_llm_fn
                    system_prompt temperature model 2
              end
          end
      end
  end.
End FromFiles.

End WithRepr.

End Cases.

(** ** More of the session and of the helpers *)

Module SessionOps.
Import PyStr Json CamelAgent.

(** [CamelCounselingSession.build_intake_form] *)
Definition build_intake_form
    (name age gender occupation education marital_status family_details
       : string) : string :=
  "Name: " +:+ name +:+ nl +:+
  "Age: " +:+ age +:+ nl +:+
  "Gender: " +:+ gender +:+ nl +:+
  "Occupation: " +:+ occupation +:+ nl +:+
  "Education: " +:+ education +:+ nl +:+
  "Marital Status: " +:+ marital_status +:+ nl +:+
  "Family Details: " +:+ family_details.



End SessionOps.

(** ** Dialogue helpers ([helpers.py]) *)

Module Helpers.
Import Json Cases CamelAgent SessionOps.
#[local] Open Scope Z_scope.

(** [l[start:]] for an [int] [start]: a negative start counts from the
    end, and a start outside the list is clamped to it. *)
Definition slice_from {A} (start : Z) (l : list A) : list A :=
  let len := Z.of_nat (length l) in
  let first := if start <? 0 then Z.max (len + start) 0 else Z.min start len in
  drop (Z.to_nat first) l.

(** [trim_camel_history]; an empty history is returned as it is. *)
Definition trim_camel_history {A} (history : list A) (keep_last : Z) : list A :=
  match history with
  | [] => history
  | _ => (take 1 history ++ slice_from (- keep_last) (drop 1 history))%list
  end.

(** A conversation turn [{"role": ..., "content": ...}]. *)
Record chat_message := { role : string; content : string }.

Definition speaker (msg : chat_message) : string :=
  if String.eqb (role msg) "assistant" then "Therapist" else "Client".

Definition format_dialogue (convo : list chat_message) (last_n : Z) : string :=
  PyStr.join PyStr.nl (map (fun msg => speaker msg +:+ ": " +:+ content msg)
               (slice_from (- last_n) convo)).

(** The phase after a series of trust evaluations, oldest first. *)
Definition phase_after (scores : list Z) (cur : string) : string :=
  fold_left Policy.next_phase scores cur.

(** [type(v).__name__] *)
Definition type_name (v : json) : string :=
  match v with
  | JNull => "NoneType"
  | JBool _ => "bool"
  | JInt _ => "int"
  | JFloat _ => "float"
  | JStr _ => "str"
  | JArr _ => "list"
  | JObj _ => "dict"
  end.

(** The [AttributeError] of [v.get] on a value that is no dict. *)
Definition no_get (v : json) : exn :=
  Raised "AttributeError"
    ("'" +:+ type_name v +:+ "' object has no attribute 'get'").

(** [not v]: the values Python counts as false. A float is false when it
    is plus or minus zero. *)
Definition falsy (v : json) : bool :=
  match v with
  | JNull => true
  | JBool b => negb b
  | JInt n => n =? 0
  | JFloat x => (x =? 0) || (x =? 2 ^ 63)
  | JStr s => PyStr.is_empty s
  | JArr items => match items with [] => true | _ => false end
  | JObj m => bool_decide (m = ∅)
  end.

(** [v or fallback] *)
Definition or_else (v fallback : json) : json :=
  if falsy v then fallback else v.

(** [v.get(k, fallback)] *)
Definition get_or (v : json) (k : string) (fallback : json) : result json :=
  match v with
  | JObj m => ok (default fallback (m !! k))
  | _ => raise (no_get v)
  end.

Section WithRepr.
Context `{PyRepr}.
#[local] Open Scope result_scope.

(** [str(ci.get(k, ""))] *)
Definition field_text (ci : json) (k : string) : result string :=
  v <- get_or ci k (JStr EmptyString) ;; ok (py_str v).

(** [cactus_to_intake_reason]; the session argument only supplies
    [build_intake_form]. The reason is returned as the value found, which
    is a string for every validated record. *)
Definition cactus_to_intake_reason (cactus_obj : gmap string json)
  : result (string * json) :=
  let intake_form :=
    or_else (default (JObj ∅) (cactus_obj !! "intake_form")) (JObj ∅) in
  ci0 <- get_or intake_form "client_info" (JObj ∅) ;;
  let ci := or_else ci0 (JObj ∅) in
  name <- field_text ci "name" ;;
  age <- field_text ci "age" ;;
  gender <- field_text ci "gender" ;;
  occupation <- field_text ci "occupation" ;;
  education <- field_text ci "education" ;;
  marital_status <- field_text ci "marital_status" ;;
  family_details <- field_text ci "family_details" ;;
  let intake :=
    build_intake_form name age gender occupation education marital_status
      family_details in
  reason0 <- get_or intake_form "reason_for_seeking_counseling"
               (JStr EmptyString) ;;
  let reason := or_else reason0 (JStr EmptyString) in
  ok (intake,
      if falsy reason then JStr "The client seeks counseling support."
      else reason).

(** [pick_patient]; [None] stands for an argument left at its default. *)
Fixpoint find_patient (patients : list json) (patient_id : string)
  : result json :=
  match patients with
  | [] => raise (ValueError ("patient_id " +:+ patient_id +:+ " not found"))
  | p :: rest =>
      id <- get_or p "id" JNull ;;
      if String.eqb (py_str id) patient_id then ok p
      else find_patient rest patient_id
  end.

Definition pick_patient (patients : list json) (patient_id : option string)
    (index : option Z) : result json :=
  match patient_id with
  | Some id => find_patient patients id
  | None =>
      match index with
      | Some i =>
          if (i <? 0)%Z || (Z.of_nat (length patients) <=? i)%Z
          then raise (ValueError ("index out of range: " +:+ pretty i))
          else match patients !! Z.to_nat i with
               | Some p => ok p
               | None => raise (Raised "IndexError" "list index out of range")
               end
      | None =>
          match patients with
          | p :: _ => ok p
          | [] => raise (Raised "IndexError" "list index out of range")
          end
      end
  end.

End WithRepr.

End Helpers.

(* ================================================================== *)
(** * Properties *)

(** ** String primitives *)

Module PyStrFacts.
Import PyStr.

(** The primitives agree with CPython on sample texts. *)
Example strip_sample : strip ("  a b " +:+ nl) = "a b".
Proof. reflexivity. Qed.

Example cut_sample : cut "ab" "xxabyyabzz" = Some ("xx", "yyabzz").
Proof. reflexivity. Qed.

Example rcut_sample : rcut "```" "a````b```c" = Some ("a````b", "c").
Proof. reflexivity. Qed.

Example rcut_overlap_sample : rcut "```" "a````" = Some ("a`", EmptyString).
Proof. reflexivity. Qed.

Example after_last_sample :
  after_last 30 "Counselor:" "Counselor: hi Counselor: there" = " there".
Proof. reflexivity. Qed.


Ltac by_cases_on_char c :=
  destruct c as [[] [] [] [] [] [] [] []]; vm_compute; try reflexivity.

Lemma is_space_lower_char c : is_space (lower_char c) = is_space c.
Proof. by_cases_on_char c. Qed.

Lemma lower_char_idem c : lower_char (lower_char c) = lower_char c.
Proof. by_cases_on_char c. Qed.

Lemma lower_idem s : lower (lower s) = lower s.
Proof.
  induction s as [| c s IH]; cbn; [reflexivity |].
  now rewrite lower_char_idem, IH.
Qed.

Lemma is_empty_lower s : is_empty (lower s) = is_empty s.
Proof. now destruct s. Qed.

Lemma lstrip_lower s : lstrip (lower s) = lower (lstrip s).
Proof.
  induction s as [| c s IH]; cbn; [reflexivity |].
  rewrite is_space_lower_char. now destruct (is_space c).
Qed.

Lemma rstrip_lower s : rstrip (lower s) = lower (rstrip s).
Proof.
  induction s as [| c s IH]; cbn; [reflexivity |].
  rewrite IH, is_empty_lower, is_space_lower_char.
  now destruct (is_empty (rstrip s) && is_space c).
Qed.

Lemma strip_lower s : strip (lower s) = lower (strip s).
Proof. unfold strip. now rewrite lstrip_lower, rstrip_lower. Qed.

Lemma lstrip_clean s : starts_clean (lstrip s).
Proof.
  induction s as [| c s IH]; cbn; [exact I |].
  destruct (is_space c) eqn:E; [exact IH | exact E].
Qed.

Lemma lstrip_id s : starts_clean s -> lstrip s = s.
Proof. destruct s as [| c s]; cbn; [reflexivity |]. now intros ->. Qed.

Lemma rstrip_clean s : starts_clean s -> starts_clean (rstrip s).
Proof.
  destruct s as [| c s]; cbn; [exact id |]. intros H.
  now destruct (is_empty (rstrip s) && is_space c).
Qed.

Lemma rstrip_idem s : rstrip (rstrip s) = rstrip s.
Proof.
  induction s as [| c s IH]; cbn; [reflexivity |].
  destruct (is_empty (rstrip s) && is_space c) eqn:E; cbn; [reflexivity |].
  now rewrite IH, E.
Qed.

Lemma strip_idem s : strip (strip s) = strip s.
Proof.
  unfold strip.
  rewrite (lstrip_id (rstrip (lstrip s))).
  - apply rstrip_idem.
  - apply rstrip_clean, lstrip_clean.
Qed.

(** Normalising twice is normalising once. *)
Lemma lower_strip_idem s : lower (strip (lower (strip s))) = lower (strip s).
Proof. now rewrite strip_lower, strip_idem, lower_idem. Qed.

End PyStrFacts.

(** ** Phase and trust policy *)

Module PolicyFacts.
Import PyStr Policy PyStrFacts.

#[local] Open Scope Z_scope.

(** C5. [next_phase] leaves trust_building for case_conceptualization
    exactly at openness 3 or more, leaves case_conceptualization for
    solution_exploration exactly at openness 4 or more, never leaves
    solution_exploration, returns any other string unchanged, and never
    moves a phase backwards. *)
Theorem next_phase_spec (cur : string) (openness : Z) :
  (next_phase "trust_building" openness = "case_conceptualization"
     <-> 3 <= openness) /\
  (openness < 3 -> next_phase "trust_building" openness = "trust_building") /\
  (next_phase "case_conceptualization" openness = "solution_exploration"
     <-> 4 <= openness) /\
  (openness < 4 ->
     next_phase "case_conceptualization" openness = "case_conceptualization") /\
  next_phase "solution_exploration" openness = "solution_exploration" /\
  (cur <> "trust_building" -> cur <> "case_conceptualization" ->
     next_phase cur openness = cur) /\
  phase_le cur (next_phase cur openness).
Proof.
  unfold next_phase, phase_le; cbn [PHASE_UPGRADE_AT reaches String.eqb Ascii.eqb].
  repeat split.
  - cbn. destruct (Z.leb_spec 3 openness); [lia | discriminate].
  - cbn. intros H. apply Z.leb_le in H. now rewrite H.
  - cbn. intros H. destruct (Z.leb_spec 3 openness); [lia | reflexivity].
  - cbn. destruct (Z.leb_spec 4 openness); [lia | discriminate].
  - cbn. intros H. apply Z.leb_le in H. now rewrite H.
  - cbn. intros H. destruct (Z.leb_spec 4 openness); [lia | reflexivity].
  - intros H1 H2.
    apply String.eqb_neq in H1, H2. now rewrite H1, H2.
  - destruct (String.eqb_spec cur "trust_building") as [-> | H1].
    + cbn. destruct (3 <=? openness); cbn; lia.
    + destruct (String.eqb_spec cur "case_conceptualization") as [-> | H2].
      * cbn. destruct (4 <=? openness); cbn; lia.
      * cbn. destruct (phase_rank cur); [lia | reflexivity].
Qed.

(** C6, as stated: an input string other than the three level names is
    not always mapped to 2, since the upper-case spelling of a level is
    such a string and keeps the level's interval. *)
Lemma trust_eval_interval_other_string_not_2 :
  ~ (forall lvl : option string,
       lvl <> Some "beginner" -> lvl <> Some "intermediate" ->
       lvl <> Some "advanced" -> trust_eval_interval lvl = 2).
Proof.
  intros H. specialize (H (Some "ADVANCED")).
  assert (E : trust_eval_interval (Some "ADVANCED") = 6) by reflexivity.
  rewrite E in H. discriminate H; discriminate.
Qed.

(** C6, amended. [trust_eval_interval] returns 2 for beginner, 4 for
    intermediate, 6 for advanced, 2 for an absent level, and 2 for every
    input whose stripped, lower-cased form is none of the three names. *)
Theorem trust_eval_interval_spec (lvl : option string) :
  trust_eval_interval (Some "beginner") = 2 /\
  trust_eval_interval (Some "intermediate") = 4 /\
  trust_eval_interval (Some "advanced") = 6 /\
  trust_eval_interval None = 2 /\
  (normal_level lvl <> "beginner" -> normal_level lvl <> "intermediate" ->
   normal_level lvl <> "advanced" -> trust_eval_interval lvl = 2).
Proof.
  repeat split; try reflexivity.
  unfold trust_eval_interval, normal_level. intros H1 H2 H3.
  apply String.eqb_neq in H1, H2, H3. now rewrite H1, H2, H3.
Qed.

Lemma trust_eval_interval_spec_witness :
  normal_level (Some "Expert ") = "expert" /\
  trust_eval_interval (Some "Expert ") = 2.
Proof.
  split; [reflexivity |].
  apply (trust_eval_interval_spec (Some "Expert "));
    vm_compute; discriminate.
Defined.

(** C10. [trust_eval_interval] gives a string the value it gives the
    string stripped of surrounding blanks and lower-cased, so
    [  Intermediate ] yields 4 and [ADVANCED] yields 6; an absent level
    yields 2. *)
Theorem trust_eval_interval_normalizes (s : string) :
  trust_eval_interval (Some s) = trust_eval_interval (Some (lower (strip s))) /\
  trust_eval_interval (Some "  Intermediate ") = 4 /\
  trust_eval_interval (Some "ADVANCED") = 6 /\
  trust_eval_interval None = 2.
Proof.
  repeat split; try reflexivity.
  unfold trust_eval_interval, default; cbn [from_option id].
  now rewrite lower_strip_idem.
Qed.

(** *** Trust score *)









Example parse_trust_score_glued : parse_trust_score "a5 5a _3_ 2" = Some 2.
Proof. reflexivity. Qed.

Example parse_trust_score_session : parse_trust_score "Session 3 summary" = Some 3.
Proof. reflexivity. Qed.

Example parse_trust_score_decimal : parse_trust_score "7 45 3.5" = Some 3.
Proof. reflexivity. Qed.


End PolicyFacts.

(** ** Record validator *)

Module ValidatorFacts.
Import PyStr Json PsiToCactus Schema Records PyStrFacts.
#[local] Open Scope result_scope.

Lemma has_visible_lstrip s : has_visible_char (lstrip s) = has_visible_char s.
Proof.
  induction s as [| c s IH]; cbn; [reflexivity |].
  destruct (is_space c) eqn:E; cbn; [exact IH | now rewrite E].
Qed.

Lemma is_empty_rstrip s : is_empty (rstrip s) = negb (has_visible_char s).
Proof.
  induction s as [| c s IH]; cbn; [reflexivity |].
  rewrite IH. now destruct (has_visible_char s), (is_space c).
Qed.

(** A text survives [strip] exactly when it has a visible character. *)
Lemma truthy_strip s : truthy (strip s) = has_visible_char s.
Proof.
  unfold truthy, strip.
  now rewrite is_empty_rstrip, Bool.negb_involutive, has_visible_lstrip.
Qed.

Lemma nonblank_visible v : nonblank_str v = visible_text v.
Proof. destruct v; cbn; try reflexivity. apply truthy_strip. Qed.

Lemma any_bad_item_forallb items :
  any_bad_item items = negb (forallb visible_text items).
Proof.
  unfold any_bad_item.
  induction items as [| x items IH]; cbn; [reflexivity |].
  rewrite IH, nonblank_visible. now destruct (visible_text x).
Qed.

Lemma py_in_obj k m :
  py_in k (JObj m) = ok (match m !! k with Some _ => true | None => false end).
Proof. cbn. now destruct (m !! k). Qed.

Lemma check_top_cons k keys m :
  check_top (k :: keys) (JObj m) =
  match m !! k with
  | Some _ => check_top keys (JObj m)
  | None => raise (ValueError ("Missing top-level key: " +:+ k))
  end.
Proof. cbn [check_top]. rewrite py_in_obj. now destruct (m !! k). Qed.

Lemma bind_ok_inv {A B} (c : result A) (k : A -> result B) b :
  bind c k = ok b -> exists a, c = ok a /\ k a = ok b.
Proof. destruct c as [e | a]; [discriminate | eauto]. Qed.

Ltac unfold_checks :=
  unfold check_thought, check_patterns, check_intake, check_technique,
    check_plan; cbn [subscript].

Lemma accepted_validates m :
  accepted m -> _validate_cactus_shape (JObj m) = ok tt.
Proof.
  intros [(vt & Et & Ht) (x & rest & Ep & Hp)
          (im & ci & Ei & Ec & Hc & Hl & Hr & Hs)
          (vq & Eq & Hq) (pm & Epl & Hpl)].
  unfold _validate_cactus_shape, required_top.
  rewrite !check_top_cons, Et, Ep, Ei, Eq, Epl. cbn [check_top bind].
  unfold_checks.
  rewrite Et, Ep, Ei, Eq, Epl; cbn [bind ok].
  rewrite Ht, Hp, Ec, Hc, Hl, Hr, Hs, Hq.
  exact Hpl.
Qed.

Lemma validates_accepted m :
  _validate_cactus_shape (JObj m) = ok tt -> accepted m.
Proof.
  unfold _validate_cactus_shape, required_top.
  rewrite !check_top_cons.
  destruct (m !! "thought") as [vt |] eqn:Et; [| discriminate].
  destruct (m !! "patterns") as [vp |] eqn:Ep; [| discriminate].
  destruct (m !! "intake_form") as [vi |] eqn:Ei; [| discriminate].
  destruct (m !! "cbt_technique") as [vq |] eqn:Eq; [| discriminate].
  destruct (m !! "cbt_plan") as [vpl |] eqn:Epl; [| discriminate].
  cbn [check_top bind ok].
  unfold_checks.
  rewrite Et, Ep, Ei, Eq, Epl; cbn [bind ok].
  destruct (nonblank_str vt) eqn:Ht; [| discriminate]. cbn [bind ok].
  destruct vp as [| | | | | [| x rest] |]; try discriminate.
  destruct (any_bad_item (x :: rest)) eqn:Hp; [discriminate |]. cbn [bind ok].
  destruct vi as [| | | | | | im]; try discriminate.
  destruct (im !! "client_info") as [[| | | | | | ci] |] eqn:Ec;
    try discriminate.
  intros H.
  apply bind_ok_inv in H as ([] & H1 & H).
  apply bind_ok_inv in H1 as ([] & Hc & H1).
  apply bind_ok_inv in H1 as ([] & Hl & H1).
  apply bind_ok_inv in H1 as ([] & Hr & Hs).
  destruct (nonblank_str vq) eqn:Hq; [| discriminate]. cbn [bind ok] in H.
  destruct vpl as [| | | | | | pm]; try discriminate.
  constructor; eauto 10.
Qed.

(** *** A record that satisfies the schema *)

Lemma has_text_lookup m k :
  has_text visible_text m k = true ->
  exists v, m !! k = Some v /\ nonblank_str v = true.
Proof.
  unfold has_text. destruct (m !! k) as [v |]; [| discriminate].
  intros H. exists v. now rewrite nonblank_visible.
Qed.

Lemma has_texts_lookup m k n :
  has_texts visible_text m k n = true ->
  exists items, m !! k = Some (JArr items) /\
                (length items <? n)%nat = false /\
                any_bad_item items = false.
Proof.
  unfold has_texts.
  destruct (m !! k) as [[| | | | | items |] |]; try discriminate.
  intros H. apply andb_prop in H as [L F]. exists items.
  rewrite any_bad_item_forallb, F. repeat split.
  apply Nat.leb_le in L. apply Nat.ltb_ge. exact L.
Qed.

Ltac split_andb :=
  repeat match goal with
    | H : (_ && _) = true |- _ => apply andb_prop in H; destruct H
    end.

Lemma client_info_ok_checks ci :
  client_info_ok visible_text (JObj ci) = true ->
  check_client_info ci_required ci = ok tt.
Proof.
  cbn [client_info_ok]. intros H. split_andb.
  destruct (ci !! "age") as [a |] eqn:Ea; [| discriminate].
  repeat match goal with
    | H : has_text _ _ _ = true |- _ =>
        apply has_text_lookup in H as (? & ? & ?)
    end.
  assert (Na : is_number a = true) by (now destruct a).
  unfold ci_required. cbn [check_client_info].
  repeat match goal with
    | E : ci !! _ = Some _ |- _ => rewrite E; clear E
    end.
  cbn [String.eqb Ascii.eqb Bool.eqb].
  repeat match goal with
    | E : nonblank_str _ = true |- _ => rewrite E; clear E
    end.
  now rewrite Na.
Qed.

Lemma intake_list_fields_ok im :
  has_texts visible_text im "presenting_problem" 3 = true ->
  has_texts visible_text im "past_history" 1 = true ->
  has_texts visible_text im "academic_occupational_functioning_level" 1 = true ->
  check_list_fields list_fields im = ok tt.
Proof.
  intros H1 H2 H3.
  apply has_texts_lookup in H1 as (l1 & E1 & L1 & B1).
  apply has_texts_lookup in H2 as (l2 & E2 & L2 & B2).
  apply has_texts_lookup in H3 as (l3 & E3 & L3 & B3).
  unfold list_fields. cbn [check_list_fields].
  now rewrite E1, L1, B1, E2, L2, B2, E3, L3, B3.
Qed.

Lemma has_text_check_text_field im field :
  has_text visible_text im field = true ->
  check_text_field field im = ok tt.
Proof.
  intros H. apply has_text_lookup in H as (v & E & N).
  unfold check_text_field. now rewrite E, N.
Qed.

Lemma cbt_plan_ok_checks pm :
  cbt_plan_ok visible_text (JObj pm) = true ->
  check_plan_keys plan_keys pm = ok tt.
Proof.
  cbn [cbt_plan_ok]. intros H. split_andb.
  repeat match goal with
    | H : has_text _ _ _ = true |- _ =>
        apply has_text_lookup in H as (? & ? & ?)
    end.
  unfold plan_keys. cbn [check_plan_keys].
  repeat match goal with
    | E : pm !! _ = Some _ |- _ => rewrite E; clear E
    end.
  repeat match goal with
    | E : nonblank_str _ = true |- _ => rewrite E; clear E
    end.
  reflexivity.
Qed.

(** C3, as stated: a record whose strings are merely non-empty does not
    always pass, since a thought made of one blank is a non-empty string
    and is refused. *)
Lemma nonempty_strings_do_not_suffice :
  ~ (forall obj : json,
       satisfies_schema nonempty_text obj = true ->
       _validate_cactus_shape obj = ok tt).
Proof.
  intros H. specialize (H (JObj blank_thought_record)).
  assert (E : _validate_cactus_shape (JObj blank_thought_record) =
              raise (ValueError "thought must be a non-empty string"))
    by (vm_compute; reflexivity).
  rewrite E in H. discriminate H. vm_compute; reflexivity.
Qed.

(** C3, amended. Every record that satisfies the target schema, where a
    non-empty string is one with at least one character that is not a
    blank, passes the validator: it returns without raising. *)
Theorem schema_record_validates (obj : json) :
  satisfies_schema visible_text obj = true ->
  _validate_cactus_shape obj = ok tt.
Proof.
  intros H. destruct obj as [| | | | | | m]; try discriminate H.
  cbn [satisfies_schema] in H. split_andb.
  destruct (m !! "intake_form") as [[| | | | | | im] |] eqn:Ei;
    try discriminate.
  destruct (m !! "cbt_plan") as [[| | | | | | pm] |] eqn:Epl;
    try discriminate.
  cbn [intake_form_ok] in *. split_andb.
  destruct (im !! "client_info") as [[| | | | | | ci] |] eqn:Ec;
    try discriminate.
  apply accepted_validates. constructor.
  - now apply has_text_lookup.
  - match goal with
    | H : has_texts _ m "patterns" _ = true |- _ =>
        apply has_texts_lookup in H as ([| x rest] & E & L & B)
    end; [discriminate L | eauto].
  - exists im, ci. repeat split; trivial.
    + now apply client_info_ok_checks.
    + now apply intake_list_fields_ok.
    + now apply has_text_check_text_field.
    + now apply has_text_check_text_field.
  - now apply has_text_lookup.
  - exists pm. split; [exact Epl |]. now apply cbt_plan_ok_checks.
Qed.

Lemma schema_record_validates_witness :
  satisfies_schema visible_text (JObj sample_record) = true /\
  _validate_cactus_shape (JObj sample_record) = ok tt.
Proof.
  split; [vm_compute; reflexivity |].
  apply (schema_record_validates (JObj sample_record)).
  vm_compute; reflexivity.
Defined.

(** *** Records with one requirement broken *)

Lemma occurs_in_middle pre x post : occurs_in x (pre +:+ x +:+ post).
Proof. now exists pre, post. Qed.

Lemma app_empty_r x : x +:+ EmptyString = x.
Proof.
  induction x as [| c x IH]; [reflexivity |].
  change (String c (x +:+ EmptyString) = String c x). now rewrite IH.
Qed.

Lemma app_assoc_text a b c : (a +:+ b) +:+ c = a +:+ b +:+ c.
Proof.
  induction a as [| ch a IH]; [reflexivity |].
  change (String ch ((a +:+ b) +:+ c) = String ch (a +:+ b +:+ c)).
  now rewrite IH.
Qed.

Lemma occurs_in_refl x : occurs_in x x.
Proof. exists EmptyString, EmptyString. now rewrite app_empty_r. Qed.

Lemma occurs_in_app_l x a b : occurs_in x a -> occurs_in x (a +:+ b).
Proof.
  intros (pre & post & ->). exists pre, (post +:+ b).
  now rewrite !app_assoc_text.
Qed.

Lemma occurs_in_app_r x a b : occurs_in x b -> occurs_in x (a +:+ b).
Proof.
  intros (pre & post & ->). exists (a +:+ pre), post.
  now rewrite !app_assoc_text.
Qed.

Lemma occurs_in_end pre x : occurs_in x (pre +:+ x).
Proof. exists pre, EmptyString. now rewrite app_empty_r. Qed.

(** A record with a new intake form is judged by that form alone. *)
Lemma validate_new_intake m im' :
  accepted m ->
  _validate_cactus_shape (JObj (<["intake_form" := JObj im']> m)) =
  match im' !! "client_info" with
  | Some (JObj ci) =>
      check_client_info ci_required ci ;;
      check_list_fields list_fields im' ;;
      check_text_field "reason_for_seeking_counseling" im' ;;
      check_text_field "social_support_system" im'
  | _ => raise (ValueError "intake_form.client_info must be an object")
  end.
Proof.
  intros [(vt & Et & Ht) (x & rest & Ep & Hp) _
          (vq & Eq & Hq) (pm & Epl & Hpl)].
  unfold _validate_cactus_shape, required_top.
  rewrite !check_top_cons.
  unfold_checks.
  rewrite lookup_insert_eq, !lookup_insert_ne by discriminate.
  rewrite Et, Ep, Eq, Epl. cbn [check_top bind ok].
  rewrite Ht, Hp. cbn [bind ok].
  destruct (im' !! "client_info") as [[| | | | | | ci] |]; try reflexivity.
  rewrite Hq, Hpl.
  destruct (check_client_info ci_required ci) as [e | []]; [reflexivity |].
  cbn [bind].
  destruct (check_list_fields list_fields im') as [e | []]; [reflexivity |].
  cbn [bind].
  destruct (check_text_field _ im') as [e | []]; [reflexivity |].
  cbn [bind].
  now destruct (check_text_field _ im') as [e | []].
Qed.

(** A record with a new plan is judged by that plan alone. *)
Lemma validate_new_plan m pm' :
  accepted m ->
  _validate_cactus_shape (JObj (with_plan pm' m)) =
  check_plan_keys plan_keys pm'.
Proof.
  intros [(vt & Et & Ht) (x & rest & Ep & Hp)
          (im & ci & Ei & Ec & Hc & Hl & Hr & Hs)
          (vq & Eq & Hq) _].
  unfold _validate_cactus_shape, required_top, with_plan.
  rewrite !check_top_cons.
  unfold_checks.
  rewrite lookup_insert_eq, !lookup_insert_ne by discriminate.
  rewrite Et, Ep, Ei, Eq. cbn [check_top bind ok].
  now rewrite Ht, Hp, Ec, Hc, Hl, Hr, Hs, Hq.
Qed.

Lemma check_client_info_without keys k ci :
  k ∈ keys ->
  check_client_info keys ci = ok tt ->
  check_client_info keys (delete k ci) =
  raise (ValueError ("Missing intake_form.client_info key: " +:+ k)).
Proof.
  induction keys as [| k0 keys IH]; intros Hin Hok.
  - now apply elem_of_nil in Hin.
  - cbn [check_client_info] in *.
    destruct (decide (k0 = k)) as [-> | Hne].
    + now rewrite lookup_delete_eq.
    + rewrite lookup_delete_ne by congruence.
      destruct (ci !! k0) as [v |]; [| discriminate].
      apply bind_ok_inv in Hok as ([] & Hv & Hok). rewrite Hv. cbn [bind].
      apply IH; [| exact Hok].
      apply elem_of_cons in Hin as [-> | Hin]; [congruence | exact Hin].
Qed.

Lemma check_list_fields_same fields im im' :
  (forall field n, (field, n) ∈ fields -> im' !! field = im !! field) ->
  check_list_fields fields im' = check_list_fields fields im.
Proof.
  induction fields as [| [f n] fields IH]; intros Hsame; [reflexivity |].
  cbn [check_list_fields].
  rewrite (Hsame f n) by apply list_elem_of_here.
  rewrite IH; [reflexivity |].
  intros f' n' Hin. apply (Hsame f' n'). now apply list_elem_of_further.
Qed.

Lemma check_text_field_same field im im' :
  im' !! field = im !! field ->
  check_text_field field im' = check_text_field field im.
Proof. unfold check_text_field. now intros ->. Qed.

Lemma check_plan_keys_without keys k pm :
  k ∈ keys -> pm !! k = None ->
  check_plan_keys keys pm =
  raise (ValueError
           "cbt_plan must contain non-empty strings for keys '1'..'5'").
Proof.
  induction keys as [| k0 keys IH]; intros Hin Hk.
  - now apply elem_of_nil in Hin.
  - cbn [check_plan_keys].
    apply elem_of_cons in Hin as [-> | Hin].
    + now rewrite Hk.
    + destruct (pm !! k0) as [v |]; [| reflexivity].
      destruct (nonblank_str v); [| reflexivity]. now apply IH.
Qed.

Lemma check_top_first_missing pre k post m :
  (forall k', k' ∈ pre -> is_Some (m !! k')) -> m !! k = None ->
  check_top (pre ++ k :: post) (JObj m) =
  raise (ValueError ("Missing top-level key: " +:+ k)).
Proof.
  induction pre as [| k0 pre IH]; intros Hpre Hk.
  - cbn [app]. now rewrite check_top_cons, Hk.
  - cbn [app]. rewrite check_top_cons.
    destruct (Hpre k0) as [v ->]; [apply list_elem_of_here |].
    apply IH; [| exact Hk].
    intros k' Hin. apply Hpre. now apply list_elem_of_further.
Qed.

(** The first missing top-level key, in the declared order, is the one
    reported, whatever else the record holds. *)
Lemma validate_first_missing pre k post m :
  required_top = (pre ++ k :: post)%list ->
  (forall k', k' ∈ pre -> is_Some (m !! k')) -> m !! k = None ->
  _validate_cactus_shape (JObj m) =
  raise (ValueError ("Missing top-level key: " +:+ k)).
Proof.
  intros E Hpre Hk. unfold _validate_cactus_shape. rewrite E.
  now rewrite (check_top_first_missing pre k post m Hpre Hk).
Qed.

Lemma validate_without_top m k :
  accepted m -> k ∈ required_top ->
  _validate_cactus_shape (JObj (delete k m)) =
  raise (ValueError ("Missing top-level key: " +:+ k)).
Proof.
  intros [(vt & Et & _) (x & rest & Ep & _) (im & ci & Ei & _)
          (vq & Eq & _) (pm & Epl & _)] Hin.
  unfold required_top in Hin.
  repeat (apply elem_of_cons in Hin as [-> | Hin];
          [ unfold _validate_cactus_shape, required_top;
            rewrite !check_top_cons, lookup_delete_eq,
              ?lookup_delete_ne by discriminate;
            rewrite ?Et, ?Ep, ?Ei, ?Eq, ?Epl; reflexivity |]).
  now apply elem_of_nil in Hin.
Qed.

Lemma check_list_fields_without fields field n im :
  (field, n) ∈ fields ->
  (forall n', (field, n') ∈ fields -> n' = n) ->
  check_list_fields fields im = ok tt ->
  check_list_fields fields (delete field im) =
  raise (ValueError ("intake_form." +:+ field +:+
           " must be a list with at least " +:+ pretty n +:+ " items")).
Proof.
  induction fields as [| [f0 n0] fields IH]; intros Hin Huniq Hok.
  - now apply elem_of_nil in Hin.
  - cbn [check_list_fields] in *.
    destruct (decide (f0 = field)) as [-> | Hne].
    + rewrite lookup_delete_eq.
      now rewrite (Huniq n0) by apply list_elem_of_here.
    + rewrite lookup_delete_ne by congruence.
      destruct (im !! f0) as [[| | | | | items |] |]; try discriminate.
      destruct (length items <? n0)%nat; [discriminate |].
      destruct (any_bad_item items); [discriminate |].
      apply IH; [| | exact Hok].
      * apply elem_of_cons in Hin as [[= -> ->] | Hin];
          [congruence | exact Hin].
      * intros n' Hn'. apply Huniq. now apply list_elem_of_further.
Qed.

Lemma list_fields_names field n :
  (field, n) ∈ list_fields ->
  (forall n', (field, n') ∈ list_fields -> n' = n) /\
  field <> "client_info" /\
  field <> "reason_for_seeking_counseling" /\
  field <> "social_support_system".
Proof.
  unfold list_fields. intros Hin.
  repeat (apply elem_of_cons in Hin as [[= -> ->] | Hin];
          [ repeat split; try discriminate;
            intros n' Hn';
            repeat (apply elem_of_cons in Hn' as [Hn' | Hn'];
                    [congruence |]);
            now apply elem_of_nil in Hn' |]).
  now apply elem_of_nil in Hin.
Qed.

(** C4, as stated: a plan whose keys are not exactly 1 to 5 is not
    always refused, since the validator only looks for the five keys and
    a plan with a sixth one passes. *)
Lemma plan_with_sixth_key_passes :
  ~ (forall m pm : gmap string json,
       _validate_cactus_shape (JObj m) = ok tt ->
       dom pm <> ({["1"; "2"; "3"; "4"; "5"]} : gset string) ->
       exists e, _validate_cactus_shape (JObj (with_plan pm m)) = raise e).
Proof.
  intros H.
  destruct (H sample_record six_step_plan) as [e He].
  - vm_compute; reflexivity.
  - apply (bool_decide_eq_false_1 _). vm_compute; reflexivity.
  - assert (E : _validate_cactus_shape
                  (JObj (with_plan six_step_plan sample_record)) = ok tt)
      by (vm_compute; reflexivity).
    rewrite E in He. discriminate He.
Qed.

(** C4, amended. On a record the validator accepts, removing any one
    required field, or giving [presenting_problem] fewer than 3 items, or
    supplying a plan that lacks one of the keys 1 to 5, makes the
    validator raise a [ValueError] whose message names that field. The
    validator is a function of the record alone; its first violation is
    fixed by the record, and among missing top-level keys it is the
    first in the declared order. *)
Theorem broken_record_raises (m : gmap string json) :
  _validate_cactus_shape (JObj m) = ok tt ->
  (forall k, k ∈ required_top ->
     raises_naming k ("Missing top-level key: " +:+ k)
       (_validate_cactus_shape (JObj (delete k m)))) /\
  raises_naming "client_info" "intake_form.client_info must be an object"
    (_validate_cactus_shape (JObj (in_intake (delete "client_info") m))) /\
  (forall k, k ∈ ci_required ->
     raises_naming k ("Missing intake_form.client_info key: " +:+ k)
       (_validate_cactus_shape
          (JObj (in_intake (in_client_info (delete k)) m)))) /\
  (forall field n, (field, n) ∈ list_fields ->
     raises_naming field
       ("intake_form." +:+ field +:+ " must be a list with at least " +:+
        pretty n +:+ " items")
       (_validate_cactus_shape (JObj (in_intake (delete field) m)))) /\
  raises_naming "reason_for_seeking_counseling"
    "intake_form.reason_for_seeking_counseling must be a non-empty string"
    (_validate_cactus_shape
       (JObj (in_intake (delete "reason_for_seeking_counseling") m))) /\
  raises_naming "social_support_system"
    "intake_form.social_support_system must be a non-empty string"
    (_validate_cactus_shape
       (JObj (in_intake (delete "social_support_system") m))) /\
  (forall items, (length items < 3)%nat ->
     raises_naming "presenting_problem"
       "intake_form.presenting_problem must be a list with at least 3 items"
       (_validate_cactus_shape
          (JObj (in_intake (insert "presenting_problem" (JArr items)) m)))) /\
  (forall pm k, k ∈ plan_keys -> pm !! k = None ->
     raises_naming "cbt_plan"
       "cbt_plan must contain non-empty strings for keys '1'..'5'"
       (_validate_cactus_shape (JObj (with_plan pm m)))) /\
  (forall obj e1 e2,
     _validate_cactus_shape obj = raise e1 ->
     _validate_cactus_shape obj = raise e2 -> e1 = e2) /\
  (forall (m' : gmap string json) pre k post,
     required_top = (pre ++ k :: post)%list ->
     (forall k', k' ∈ pre -> is_Some (m' !! k')) -> m' !! k = None ->
     _validate_cactus_shape (JObj m') =
     raise (ValueError ("Missing top-level key: " +:+ k))).
Proof.
  intros Hok. apply validates_accepted in Hok as Hacc.
  pose proof Hacc as [_ _ (im & ci & Ei & Ec & Hc & Hl & Hr & Hs) _ _].
  unfold in_intake, in_client_info. rewrite Ei, Ec.
  repeat match goal with |- _ /\ _ => split end.
  - intros k Hk. split; [now apply validate_without_top |].
    apply occurs_in_end.
  - split; [| now exists "intake_form.", " must be an object"].
    rewrite validate_new_intake by exact Hacc.
    now rewrite lookup_delete_eq.
  - intros k Hk. split; [| apply occurs_in_end].
    rewrite validate_new_intake by exact Hacc.
    rewrite lookup_insert_eq.
    now rewrite (check_client_info_without _ _ _ Hk Hc).
  - intros field n Hin. split; [| apply occurs_in_middle].
    destruct (list_fields_names _ _ Hin) as (Huniq & Hne & _).
    rewrite validate_new_intake by exact Hacc.
    rewrite lookup_delete_ne by congruence. rewrite Ec, Hc. cbn [bind].
    now rewrite (check_list_fields_without _ _ _ _ Hin Huniq Hl).
  - split; [| now exists "intake_form.", " must be a non-empty string"].
    rewrite validate_new_intake by exact Hacc.
    rewrite lookup_delete_ne by discriminate. rewrite Ec, Hc. cbn [bind].
    rewrite (check_list_fields_same _ im); [rewrite Hl; cbn [bind] |].
    + unfold check_text_field. now rewrite lookup_delete_eq.
    + intros f n Hin. destruct (list_fields_names _ _ Hin) as (_ & _ & Hne & _).
      apply lookup_delete_ne. congruence.
  - split; [| now exists "intake_form.", " must be a non-empty string"].
    rewrite validate_new_intake by exact Hacc.
    rewrite lookup_delete_ne by discriminate. rewrite Ec, Hc. cbn [bind].
    rewrite (check_list_fields_same _ im); [rewrite Hl; cbn [bind] |].
    + rewrite (check_text_field_same _ im) by (now apply lookup_delete_ne).
      rewrite Hr. cbn [bind].
      unfold check_text_field. now rewrite lookup_delete_eq.
    + intros f n Hin. destruct (list_fields_names _ _ Hin) as (_ & _ & _ & Hne).
      apply lookup_delete_ne. congruence.
  - intros items Hlen.
    split; [| now exists "intake_form.",
                " must be a list with at least 3 items"].
    rewrite validate_new_intake by exact Hacc.
    rewrite lookup_insert_ne by discriminate. rewrite Ec, Hc. cbn [bind].
    unfold list_fields. cbn [check_list_fields].
    rewrite lookup_insert_eq.
    apply Nat.ltb_lt in Hlen. now rewrite Hlen.
  - intros pm k Hk Hnone.
    split; [| now exists EmptyString,
                " must contain non-empty strings for keys '1'..'5'"].
    rewrite validate_new_plan by exact Hacc.
    now apply (check_plan_keys_without _ k).
  - intros obj e1 e2 H1 H2. rewrite H1 in H2. now injection H2.
  - intros m' pre k post. apply validate_first_missing.
Qed.

Lemma broken_record_raises_witness :
  _validate_cactus_shape (JObj sample_record) = ok tt /\
  raises_naming "gender" "Missing intake_form.client_info key: gender"
    (_validate_cactus_shape
       (JObj (in_intake (in_client_info (delete "gender")) sample_record))).
Proof.
  assert (Hok : _validate_cactus_shape (JObj sample_record) = ok tt)
    by (vm_compute; reflexivity).
  split; [exact Hok |].
  destruct (broken_record_raises sample_record Hok) as (_ & _ & Hci & _).
  apply Hci. unfold ci_required.
  do 2 apply list_elem_of_further. apply list_elem_of_here.
Defined.

End ValidatorFacts.

(** ** Repair-retry converter *)

Module ConverterFacts.
Import PyStr Json PsiToCactus Schema Records Doubles PyStrFacts ValidatorFacts.
#[local] Open Scope result_scope.

Example parse_fenced_document :
  @_parse_json_strict stub_runtime
    ("```json" +:+ nl +:+ sample_document +:+ nl +:+ "```" +:+ nl)
  = ok (JObj sample_record).
Proof. vm_compute. reflexivity. Qed.

Example parse_blank_document :
  @parse_and_validate stub_runtime ("  " +:+ nl)
  = raise (Raised "JSONDecodeError" "Expecting value: line 1 column 1 (char 0)").
Proof. vm_compute. reflexivity. Qed.


Section WithRuntime.
Context `{PyRuntime}.

Lemma strip_blank text : has_visible_char text = false -> strip text = EmptyString.
Proof.
  intros B. pose proof (truthy_strip text) as T. rewrite B in T.
  unfold truthy in T. now destruct (strip text).
Qed.


Section Loop.
Variable call_llm_fn : gateway.
Variables (sys user : string) (temp : pyfloat) (mdl : string).
Hypothesis never_valid :
  forall earlier req,
    exists e, parse_and_validate (call_llm_fn earlier req) = raise e.

End Loop.

End WithRuntime.



(** A record that satisfies the target schema is a JSON object holding
    what the validator asks for. *)
Lemma schema_record_accepted (obj : json) :
  satisfies_schema visible_text obj = true ->
  exists m, obj = JObj m /\ accepted m.
Proof.
  intros H. destruct obj as [| | | | | | m]; try discriminate H.
  exists m. split; [reflexivity |].
  cbn [satisfies_schema] in H. split_andb.
  destruct (m !! "intake_form") as [[| | | | | | im] |] eqn:Ei;
    try discriminate.
  destruct (m !! "cbt_plan") as [[| | | | | | pm] |] eqn:Epl;
    try discriminate.
  cbn [intake_form_ok] in *. split_andb.
  destruct (im !! "client_info") as [[| | | | | | ci] |] eqn:Ec;
    try discriminate.
  constructor.
  - now apply has_text_lookup.
  - match goal with
    | H : has_texts _ m "patterns" _ = true |- _ =>
        apply has_texts_lookup in H as ([| x rest] & E & L & B)
    end; [discriminate L | eauto].
  - exists im, ci. repeat split; trivial.
    + now apply client_info_ok_checks.
    + now apply intake_list_fields_ok.
    + now apply has_text_check_text_field.
    + now apply has_text_check_text_field.
  - now apply has_text_lookup.
  - exists pm. split; [exact Epl |]. now apply cbt_plan_ok_checks.
Qed.

(** An answer that is plain JSON text, with no fence, is decoded from its
    stripped text and accepted when the record satisfies the schema. *)
Lemma plain_record_accepted `{PyRuntime} (answer : string) (obj : json) :
  startswith "```" (strip answer) = false ->
  json_loads (strip answer) = ok obj ->
  satisfies_schema visible_text obj = true ->
  parse_and_validate answer = ok obj /\ _validate_cactus_shape obj = ok tt.
Proof.
  intros Hplain Hdecoded Hschema.
  destruct (schema_record_accepted obj Hschema) as (m & -> & Hacc).
  pose proof (accepted_validates m Hacc) as Hvalid.
  split; [| exact Hvalid].
  unfold parse_and_validate, _parse_json_strict.
  rewrite Hplain, Hdecoded. unfold ok at 1. cbn [bind]. now rewrite Hvalid.
Qed.

(** C2. With a gateway whose first answer fails to parse or to validate
    and whose answer to the repair request is a record satisfying the
    target schema, written as plain JSON text that the decoder reads as
    that record, and [max_retries >= 1], the converter returns that
    record after exactly two requests; the second request's user prompt
    contains the first answer's error text and the serialized case
    record. *)
Theorem convert_repairs_once `{PyRuntime} (call_llm_fn : gateway)
    (psi_case : json) (sys : string) (temp : pyfloat) (mdl : string)
    (max_retries : Z) (e : exn) (obj : json) :
  let user := json_dumps psi_case in
  let first := request sys user temp mdl 0 None in
  let err := error_text e in
  let second := request sys user temp mdl 1 (Some err) in
  let answer := call_llm_fn [first] second in
  (1 <= max_retries)%Z ->
  parse_and_validate (call_llm_fn [] first) = raise e ->
  startswith "```" (strip answer) = false ->
  json_loads (strip answer) = ok obj ->
  satisfies_schema visible_text obj = true ->
  psi_case_to_cactus psi_case call_llm_fn sys temp mdl max_retries =
    (ok obj, [first; second]) /\
  _validate_cactus_shape obj = ok tt /\
  occurs_in err (user_prompt second) /\
  occurs_in (exc_str e) (user_prompt second) /\
  occurs_in user (user_prompt second).
Proof.
  intros user first err second answer Hretries Hfirst Hplain Hdecoded Hschema.
  destruct (plain_record_accepted answer obj Hplain Hdecoded Hschema)
    as [Hsecond Hvalid].
  split; [| split; [| split; [| split]]].
  - unfold psi_case_to_cactus.
    replace (Z.to_nat (max_retries + 1)) with (S (S (Z.to_nat (max_retries - 1))))
      by lia.
    cbn [attempts app]. fold user. fold first. rewrite Hfirst.
    unfold raise. fold err. fold second. fold answer. now rewrite Hsecond.
  - exact Hvalid.
  - unfold second, request, repair_prompt, repair_user, show_last_err, default;
      cbn [user_prompt from_option id].
    apply occurs_in_app_l. do 4 apply occurs_in_app_r.
    apply occurs_in_app_l, occurs_in_refl.
  - unfold second, request, repair_prompt, repair_user, show_last_err, default;
      cbn [user_prompt from_option id].
    apply occurs_in_app_l. do 4 apply occurs_in_app_r.
    apply occurs_in_app_l. unfold err, error_text.
    do 2 apply occurs_in_app_r. apply occurs_in_refl.
  - unfold second, request, repair_prompt; cbn [user_prompt].
    do 5 apply occurs_in_app_r. apply occurs_in_refl.
Qed.

Lemma convert_repairs_once_witness :
  exists first second,
    @psi_case_to_cactus stub_runtime (JObj sample_record)
      plain_repairing_gateway "Convert the case." 0%Z "gpt-4o-mini" 2 =
    (ok (JObj sample_record), [first; second]) /\
    occurs_in "JSONDecodeError: Expecting value: line 1 column 1 (char 0)"
      (user_prompt second).
Proof.
  pose proof (@convert_repairs_once stub_runtime plain_repairing_gateway
                (JObj sample_record) "Convert the case." 0%Z "gpt-4o-mini" 2
                (Raised "JSONDecodeError"
                   "Expecting value: line 1 column 1 (char 0)")
                (JObj sample_record)) as W.
  cbv zeta in W.
  destruct W as (Hrun & _ & Herr & _).
  - lia.
  - vm_compute. reflexivity.
  - vm_compute. reflexivity.
  - vm_compute. reflexivity.
  - vm_compute. reflexivity.
  - eexists _, _. split; [exact Hrun | exact Herr].
Defined.

End ConverterFacts.

(** ** Counseling session *)

Module SessionFacts.
Import PyStr Json CamelAgent Doubles.

Example parse_plan_sample :
  parse_plan ("Decatastrophizing" +:+ nl +:+ nl +:+ "Counseling planning:" +:+ nl
              +:+ "1. do this" +:+ nl +:+ "2. do that" +:+ nl +:+ "CBT technique")
  = (Some "Decatastrophizing", Some ("1. do this" +:+ nl +:+ "2. do that")).
Proof. reflexivity. Qed.

Example parse_plan_no_delimiter :
  parse_plan "just some text " = (Some "just some text", Some "just some text").
Proof. reflexivity. Qed.

Example parse_plan_empty : parse_plan EmptyString = (None, None).
Proof. reflexivity. Qed.

Example clean_utterance_sample :
  clean_utterance ("Counselor: line one" +:+ nl +:+ "line two  ")
  = "line one line two".
Proof. reflexivity. Qed.

Example start_seeds_history :
  history (fst started_world) =
  [ {| turn_role := Counselor;
       message := "Hi, it's nice to meet you. How can I assist you today?" |} ] /\
  cbt_technique (fst started_world) = Some "Decatastrophizing" /\
  cbt_plan (fst started_world) =
    Some "Name the feared outcome, then weigh the evidence.".
Proof. repeat split; vm_compute; reflexivity. Qed.


Section WithEndpoint.
Variable llm_invoke : endpoint.

End WithEndpoint.



(** C9. [ensure_plan] raises when the intake form or the reason is
    unset; and whenever the session already has a plan it sends nothing
    to the endpoint and leaves every field of the session as it was,
    returning normally once intake form and reason are set. *)
Theorem ensure_plan_keeps_plan (llm_invoke : endpoint) (s : session)
    (sent : list string) :
  (is_set (intake_form s) = false \/ is_set (reason s) = false ->
   ensure_plan llm_invoke (s, sent) =
   (raise (ValueError "intake_form and reason must be set before planning."),
    (s, sent))) /\
  (is_set (cbt_plan s) = true ->
   snd (ensure_plan llm_invoke (s, sent)) = (s, sent)) /\
  (is_set (cbt_plan s) = true ->
   is_set (intake_form s) = true -> is_set (reason s) = true ->
   ensure_plan llm_invoke (s, sent) = (ok tt, (s, sent))) /\
  (is_set (cbt_plan s) = true ->
   ensure_plan llm_invoke (snd (ensure_plan llm_invoke (s, sent))) =
   ensure_plan llm_invoke (s, sent)).
Proof.
  assert (Keeps : is_set (cbt_plan s) = true ->
                  snd (ensure_plan llm_invoke (s, sent)) = (s, sent)).
  { intros Hp. unfold ensure_plan. rewrite Hp.
    now destruct (negb (is_set (intake_form s)) || negb (is_set (reason s))). }
  split; [| split; [exact Keeps | split]].
  - intros Hunset. unfold ensure_plan.
    destruct Hunset as [-> | ->]; [reflexivity |].
    now rewrite orb_true_r.
  - intros Hp Hi Hr. unfold ensure_plan. now rewrite Hp, Hi, Hr.
  - intros Hp. now rewrite (Keeps Hp).
Qed.

Lemma ensure_plan_keeps_plan_witness :
  is_set (cbt_plan (fst started_world)) = true /\
  ensure_plan scripted_endpoint started_world = (ok tt, started_world).
Proof.
  split; [vm_compute; reflexivity |].
  destruct (ensure_plan_keeps_plan scripted_endpoint (fst started_world)
              (snd started_world)) as (_ & _ & Hnoop & _).
  apply Hnoop; vm_compute; reflexivity.
Defined.

End SessionFacts.

(** ** Record validator: what else it accepts and refuses *)

Module ValidatorMore.
Import PyStr Json PsiToCactus Schema Records PyStrFacts ValidatorFacts.
#[local] Open Scope result_scope.

Lemma validate_needs_dict obj :
  _validate_cactus_shape obj = ok tt -> exists m, obj = JObj m.
Proof.
  intros Hvalid.
  destruct obj as [| b | n | x | s | items | m]; [| | | | | | now exists m];
    exfalso; revert Hvalid; unfold _validate_cactus_shape.
  1-4: unfold required_top; cbn [check_top py_in bind raise]; discriminate.
  - destruct (check_top required_top (JStr s)) as [e | []]; [discriminate |].
    cbn [bind]. unfold check_thought. cbn [subscript bind raise]. discriminate.
  - destruct (check_top required_top (JArr items)) as [e | []]; [discriminate |].
    cbn [bind]. unfold check_thought. cbn [subscript bind raise]. discriminate.
Qed.

(** X1. The validator accepts nothing but a JSON object. On [null], a
    boolean or a number the first membership test raises a [TypeError];
    a list or a string either lacks a key, which is reported as missing,
    or fails with a [TypeError] at the first subscript. *)
Theorem validator_accepts_only_objects (obj : json) :
  (_validate_cactus_shape obj = ok tt -> is_dict obj = true) /\
  (is_dict obj = false -> is_list obj = false -> is_str obj = false ->
   _validate_cactus_shape obj = raise (NotContainer obj)) /\
  (is_list obj = true \/ is_str obj = true ->
   _validate_cactus_shape obj = raise (NotSubscriptable obj) \/
   exists k, k ∈ required_top /\
             _validate_cactus_shape obj =
             raise (ValueError ("Missing top-level key: " +:+ k))).
Proof.
  split; [| split].
  - intros Hok. now destruct (validate_needs_dict obj Hok) as [m ->].
  - now destruct obj.
  - intros Hshape.
    assert (Hin : forall k, exists b, py_in k obj = ok b).
    { intros k. destruct obj; cbn in Hshape; try (now destruct Hshape);
        now eexists. }
    assert (Hsub : forall k, subscript obj k = raise (NotSubscriptable obj)).
    { intros k. destruct obj; cbn in Hshape; try (now destruct Hshape);
        reflexivity. }
    unfold _validate_cactus_shape, required_top. cbn [check_top].
    repeat match goal with
      | |- context [py_in ?k obj] =>
          let b := fresh "b" in let E := fresh "E" in
          destruct (Hin k) as [b E]; rewrite E; cbn [bind];
          destruct b;
          [| right; exists k; split;
             [unfold required_top;
              repeat first [apply list_elem_of_here
                           | apply list_elem_of_further]
             | reflexivity]]
      end.
    left. cbn [bind]. unfold check_thought. now rewrite Hsub.
Qed.

Lemma validator_accepts_only_objects_witness :
  _validate_cactus_shape (JInt 5) = raise (NotContainer (JInt 5)).
Proof.
  destruct (validator_accepts_only_objects (JInt 5)) as (_ & Hscalar & _).
  apply Hscalar; reflexivity.
Defined.

Lemma check_client_info_other_key keys k v ci :
  k ∉ keys ->
  check_client_info keys (<[k := v]> ci) = check_client_info keys ci.
Proof.
  induction keys as [| k0 keys IH]; intros Hnot; [reflexivity |].
  apply not_elem_of_cons in Hnot as [Hne Hnot].
  cbn [check_client_info]. rewrite lookup_insert_ne by congruence.
  now rewrite IH.
Qed.

(** A record with new client information is judged by that information
    alone. *)
Lemma validate_new_client_info m ci' :
  accepted m ->
  _validate_cactus_shape (JObj (in_intake (in_client_info (fun _ => ci')) m))
  = check_client_info ci_required ci'.
Proof.
  intros Hacc.
  pose proof Hacc as [_ _ (im & ci & Ei & Ec & Hc & Hl & Hr & Hs) _ _].
  unfold in_intake, in_client_info. rewrite Ei, Ec.
  rewrite validate_new_intake by exact Hacc.
  rewrite lookup_insert_eq.
  destruct (check_client_info ci_required ci') as [e | []]; [reflexivity |].
  cbn [bind].
  rewrite (check_list_fields_same _ im), Hl.
  - cbn [bind].
    rewrite (check_text_field_same "reason_for_seeking_counseling" im),
      (check_text_field_same "social_support_system" im)
      by (apply lookup_insert_ne; discriminate).
    now rewrite Hr, Hs.
  - intros f n Hin. destruct (list_fields_names _ _ Hin) as (_ & Hne & _).
    apply lookup_insert_ne. congruence.
Qed.

Lemma check_client_info_cons_ok k keys ci :
  check_client_info (k :: keys) ci = ok tt ->
  exists v, ci !! k = Some v /\
            (if String.eqb k "age" then is_number v else nonblank_str v) = true /\
            check_client_info keys ci = ok tt.
Proof.
  cbn [check_client_info]. destruct (ci !! k) as [v |]; [| discriminate].
  intros Hok. apply bind_ok_inv in Hok as ([] & Hitem & Hrest).
  exists v. repeat split; [| exact Hrest].
  destruct (String.eqb k "age").
  - now destruct (is_number v).
  - now destruct (nonblank_str v).
Qed.

(** X2. The age of the client is accepted exactly when it is a JSON
    number or a boolean: on an accepted record, replacing the age by [v]
    keeps the record accepted when [v] is an [int], a [float] or a [bool],
    and otherwise raises "client_info.age must be a number"; a numeric
    string is refused. *)
Theorem age_accepted_iff_number (m : gmap string json) (v : json) :
  _validate_cactus_shape (JObj m) = ok tt ->
  _validate_cactus_shape
    (JObj (in_intake (in_client_info (insert "age" v)) m))
  = (if is_number v then ok tt
     else raise (ValueError "client_info.age must be a number")) /\
  is_number (JBool true) = true /\ is_number (JStr "45") = false.
Proof.
  intros Hok. apply validates_accepted in Hok as Hacc.
  split; [| split; reflexivity].
  pose proof Hacc as [_ _ (im & ci & Ei & Ec & Hc & _) _ _].
  pose proof (validate_new_client_info m (<["age" := v]> ci) Hacc) as Hnew.
  unfold in_intake, in_client_info in Hnew |- *.
  rewrite Ei, Ec in Hnew |- *. rewrite Hnew. clear Hnew.
  unfold ci_required in Hc |- *.
  apply check_client_info_cons_ok in Hc as (vn & En & Hn & Hc).
  apply check_client_info_cons_ok in Hc as (va & Ea & Ha & Hrest).
  cbn [String.eqb Ascii.eqb Bool.eqb] in Hn.
  set (rest := ["gender"; "occupation"; "education"; "marital_status";
                "family_details"]) in *.
  cbn [check_client_info].
  rewrite lookup_insert_ne by discriminate. rewrite lookup_insert_eq, En.
  cbn [String.eqb Ascii.eqb Bool.eqb]. rewrite Hn. cbn [bind].
  destruct (is_number v); [| reflexivity]. cbn [bind].
  rewrite check_client_info_other_key; [exact Hrest |].
  subst rest. rewrite !not_elem_of_cons.
  repeat split; try discriminate. apply not_elem_of_nil.
Qed.

Lemma age_accepted_iff_number_witness :
  _validate_cactus_shape
    (JObj (in_intake (in_client_info (insert "age" (JStr "45"))) sample_record))
  = raise (ValueError "client_info.age must be a number").
Proof.
  destruct (age_accepted_iff_number sample_record (JStr "45")) as [Hage _];
    [vm_compute; reflexivity |].
  exact Hage.
Defined.

(** X3. The validator reads the five top-level keys and nothing else: two
    records that agree on them get the same verdict, so any further
    top-level key is ignored. *)
Theorem validator_reads_five_keys (m m' : gmap string json) :
  (forall k, k ∈ required_top -> m' !! k = m !! k) ->
  _validate_cactus_shape (JObj m') = _validate_cactus_shape (JObj m).
Proof.
  intros Hsame.
  assert (E : forall k, k ∈ required_top -> m' !! k = m !! k) by exact Hsame.
  unfold _validate_cactus_shape, required_top in *.
  rewrite !check_top_cons. unfold_checks.
  rewrite !E by (repeat first [apply list_elem_of_here
                              | apply list_elem_of_further]).
  reflexivity.
Qed.

Lemma validator_reads_five_keys_witness :
  _validate_cactus_shape (JObj (<["notes" := JInt 7]> sample_record)) = ok tt.
Proof.
  rewrite (validator_reads_five_keys sample_record
             (<["notes" := JInt 7]> sample_record)).
  - vm_compute. reflexivity.
  - intros k Hk. apply lookup_insert_ne. intros <-.
    unfold required_top in Hk. rewrite !elem_of_cons in Hk.
    destruct Hk as [Hk | [Hk | [Hk | [Hk | [Hk | Hk]]]]];
      try discriminate Hk. now apply elem_of_nil in Hk.
Defined.

End ValidatorMore.

(** ** Repair-retry converter: every gateway *)

Module ConverterRuns.
Import PyStr Json PsiToCactus Records Doubles ValidatorFacts ValidatorMore.
#[local] Open Scope result_scope.

Section WithRuntime.
Context `{PyRuntime}.

Lemma parse_and_validate_ok response obj :
  parse_and_validate response = ok obj ->
  _parse_json_strict response = ok obj /\ _validate_cactus_shape obj = ok tt.
Proof.
  unfold parse_and_validate.
  destruct (_parse_json_strict response) as [e | v]; [discriminate |].
  cbn [bind]. destruct (_validate_cactus_shape v) as [e | []] eqn:V;
    [discriminate |].
  cbn [bind]. now intros [= <-].
Qed.

Section Loop.
Variable call_llm_fn : gateway.
Variables (sys user : string) (temp : pyfloat) (mdl : string).

(** What a run of the loop leaves: the requests it added, and how the
    result relates to the answers they received. *)
Lemma attempts_outcome remaining : forall attempt last_err calls,
  exists sent,
    snd (attempts call_llm_fn sys user temp mdl remaining attempt last_err calls)
    = (calls ++ sent)%list /\
    (length sent <= remaining)%nat /\
    match fst (attempts call_llm_fn sys user temp mdl remaining attempt
                 last_err calls) with
    | inr obj =>
        exists earlier req,
          (calls ++ sent)%list = (earlier ++ [req])%list /\
          (length calls <= length earlier)%nat /\
          parse_and_validate (call_llm_fn earlier req) = ok obj
    | inl e =>
        length sent = remaining /\
        exists final, e = conversion_failed final /\
                      (remaining = 0%nat -> final = last_err)
    end.
Proof.
  induction remaining as [| n IH]; intros attempt last_err calls.
  - exists []. cbn. rewrite app_nil_r. repeat split; [lia |].
    now exists last_err.
  - cbn [attempts].
    set (req := request sys user temp mdl attempt last_err).
    destruct (parse_and_validate (call_llm_fn calls req)) as [e | obj] eqn:E.
    + destruct (IH (S attempt) (Some (error_text e)) (calls ++ [req])%list)
        as (sent & Hsnd & Hlen & Hres).
      exists (req :: sent). rewrite Hsnd, <- app_assoc. cbn [app length].
      split; [reflexivity |]. split; [lia |].
      destruct (fst (attempts call_llm_fn sys user temp mdl n (S attempt)
                       (Some (error_text e)) (calls ++ [req])%list))
        as [e' | obj].
      * destruct Hres as (Hl & final & -> & _).
        split; [now rewrite Hl |]. exists final. split; [reflexivity | lia].
      * destruct Hres as (earlier & r & Heq & Hle & Hok).
        exists earlier, r. rewrite <- app_assoc in Heq. cbn [app] in Heq.
        split; [exact Heq |]. split; [| exact Hok].
        rewrite length_app in Hle. lia.
    + exists [req]. cbn [fst snd length]. split; [reflexivity |].
      split; [lia |]. exists calls, req. repeat split; [lia | exact E].
Qed.
End Loop.

End WithRuntime.

(** X4. Whatever the gateway answers, a record the converter returns has
    passed the validator: it is a JSON object, the decoding of the last
    answer received, and between 1 and [max_retries + 1] requests were
    sent. *)
Theorem convert_returns_only_validated `{PyRuntime} (call_llm_fn : gateway)
    (psi_case : json) (sys : string) (temp : pyfloat) (mdl : string)
    (max_retries : Z) (obj : json) (calls : list llm_call) :
  psi_case_to_cactus psi_case call_llm_fn sys temp mdl max_retries
  = (ok obj, calls) ->
  _validate_cactus_shape obj = ok tt /\
  is_dict obj = true /\
  (1 <= Z.of_nat (length calls) <= max_retries + 1)%Z /\
  exists earlier req,
    calls = (earlier ++ [req])%list /\
    _parse_json_strict (call_llm_fn earlier req) = ok obj.
Proof.
  unfold psi_case_to_cactus. intros Hrun.
  destruct (attempts_outcome call_llm_fn sys (json_dumps psi_case) temp mdl
              (Z.to_nat (max_retries + 1)) 0%nat None [])
    as (sent & Hsnd & Hlen & Hres).
  rewrite Hrun in Hsnd, Hres. cbn [fst snd app] in *. subst sent.
  destruct Hres as (earlier & req & -> & _ & Hok).
  apply parse_and_validate_ok in Hok as [Hparse Hvalid].
  split; [exact Hvalid |]. split.
  - now destruct (validate_needs_dict obj Hvalid) as [m ->].
  - rewrite length_app in *. cbn [length] in *. split; [lia |].
    now exists earlier, req.
Qed.

Lemma convert_returns_only_validated_witness :
  exists calls,
    @psi_case_to_cactus stub_runtime (JObj sample_record) repairing_gateway
      "Convert the case." 0%Z "gpt-4o-mini" 2 = (ok (JObj sample_record), calls) /\
    _validate_cactus_shape (JObj sample_record) = ok tt.
Proof.
  eexists. split; [vm_compute; reflexivity |].
  eapply (@convert_returns_only_validated stub_runtime repairing_gateway
            (JObj sample_record) "Convert the case." 0%Z "gpt-4o-mini" 2).
  vm_compute. reflexivity.
Defined.

Section Requests.
Context `{PyRuntime}.
Variable call_llm_fn : gateway.
Variables (sys user : string) (temp : pyfloat) (mdl : string).

(** How each request of a run was built. *)
Lemma attempts_requests remaining : forall last_err calls i req,
  snd (attempts call_llm_fn sys user temp mdl remaining (length calls)
         last_err calls) !! i = Some req ->
  (length calls <= i)%nat ->
  exists err,
    req = request sys user temp mdl i err /\
    (i = length calls -> err = last_err) /\
    ((length calls < i)%nat ->
     exists prev e,
       snd (attempts call_llm_fn sys user temp mdl remaining (length calls)
              last_err calls) !! (i - 1)%nat = Some prev /\
       parse_and_validate
         (call_llm_fn
            (take (i - 1)
               (snd (attempts call_llm_fn sys user temp mdl remaining
                       (length calls) last_err calls))) prev) = raise e /\
       err = Some (error_text e)).
Proof.
  induction remaining as [| n IH]; intros last_err calls i req Hi Hle.
  - cbn in Hi. apply lookup_lt_Some in Hi. lia.
  - cbn [attempts] in *.
    set (req0 := request sys user temp mdl (length calls) last_err) in *.
    destruct (parse_and_validate (call_llm_fn calls req0)) as [e | obj] eqn:E.
    + replace (S (length calls)) with (length (calls ++ [req0])) in *
        by (rewrite length_app; cbn; lia).
      destruct (attempts_outcome call_llm_fn sys user temp mdl n
                  (length (calls ++ [req0])) (Some (error_text e))
                  (calls ++ [req0]))
        as (sent & Hsnd & _).
      destruct (decide (i = length calls)) as [-> | Hne].
      * exists last_err. rewrite Hsnd, <- app_assoc in Hi.
        rewrite lookup_app_r, Nat.sub_diag in Hi by lia.
        cbn in Hi. injection Hi as <-.
        split; [reflexivity |]. split; [reflexivity | lia].
      * destruct (IH (Some (error_text e)) (calls ++ [req0])%list i req Hi)
          as (err & Hreq & Hfirst & Hlater).
        { rewrite length_app. cbn. lia. }
        exists err. split; [exact Hreq |]. split; [lia |]. intros _.
        set (run := snd (attempts call_llm_fn sys user temp mdl n
                           (length (calls ++ [req0])) (Some (error_text e))
                           (calls ++ [req0]))) in *.
        rewrite length_app in Hfirst, Hlater. cbn [length] in Hfirst, Hlater.
        destruct (decide (i = (length calls + 1)%nat)) as [-> | Hne'].
        -- exists req0, e.
           replace (length calls + 1 - 1)%nat with (length calls) by lia.
           rewrite Hsnd, <- app_assoc.
           rewrite lookup_app_r, Nat.sub_diag by lia.
           rewrite take_app_length. repeat split; [exact E | now apply Hfirst].
        -- apply Hlater. lia.
    + cbn [snd] in *.
      assert (i = length calls) as ->.
      { apply lookup_lt_Some in Hi. rewrite length_app in Hi. cbn in Hi. lia. }
      rewrite lookup_app_r, Nat.sub_diag in Hi by lia.
      cbn in Hi. injection Hi as <-.
      exists last_err. split; [reflexivity |]. split; [reflexivity | lia].
Qed.
End Requests.

Section RaisingLoop.
Context `{PyRuntime}.
Variables (sys user : string) (temp : pyfloat) (mdl : string).

(** Over a gateway that always answers, the loop is the one above. *)
Lemma attempts_answering (call_llm_fn : gateway) remaining :
  forall attempt last_err calls,
    attempts_raising (answering call_llm_fn) sys user temp mdl remaining
      attempt last_err calls
    = attempts call_llm_fn sys user temp mdl remaining attempt last_err calls.
Proof.
  induction remaining as [| n IH]; intros attempt last_err calls;
    [reflexivity |].
  cbn [attempts_raising attempts]. unfold answering at 1, ok at 1.
  cbv beta iota.
  destruct (parse_and_validate _) as [e | obj]; [apply IH | reflexivity].
Qed.

(** How a run of the loop can fail: the gateway raised on the last
    request, or every request was answered and the budget is spent. *)
Lemma attempts_raising_failure (call_llm_fn : raising_gateway) remaining :
  forall attempt last_err start e calls,
    attempts_raising call_llm_fn sys user temp mdl remaining attempt last_err
      start = (raise e, calls) ->
    (0 < remaining)%nat ->
    exists earlier req,
      calls = (earlier ++ [req])%list /\
      (length start < length calls <= length start + remaining)%nat /\
      (call_llm_fn earlier req = raise e \/
       length calls = (length start + remaining)%nat /\
       exists answer e_last,
         call_llm_fn earlier req = ok answer /\
         parse_and_validate answer = raise e_last /\
         e = conversion_failed (Some (error_text e_last))).
Proof.
  induction remaining as [| n IH];
    intros attempt last_err start e calls Hrun Hpos; [lia |].
  cbn [attempts_raising] in Hrun.
  set (req := request sys user temp mdl attempt last_err) in *.
  destruct (call_llm_fn start req) as [e0 | answer] eqn:Hcall.
  - injection Hrun as <- <-. exists start, req.
    rewrite length_app. cbn [length].
    split; [reflexivity |]. split; [lia |]. now left.
  - destruct (parse_and_validate answer) as [e0 | obj] eqn:Hparse;
      [| discriminate Hrun].
    destruct n as [| n'].
    + cbn [attempts_raising] in Hrun. injection Hrun as <- <-.
      exists start, req. rewrite length_app. cbn [length].
      split; [reflexivity |]. split; [lia |]. right.
      split; [lia |]. now exists answer, e0.
    + destruct (IH _ _ _ _ _ Hrun) as (earlier & r & -> & Hlen & Hwhy);
        [lia |].
      rewrite length_app in Hlen. cbn [length] in Hlen.
      exists earlier, r. split; [reflexivity |]. split; [lia |].
      destruct Hwhy as [Hraised | (Hall & Hlast)]; [now left | right].
      split; [| exact Hlast].
      rewrite Hall, length_app. cbn [length]. lia.
Qed.
End RaisingLoop.

(** Over a gateway that always answers, the converter is the one above. *)
Lemma convert_answering `{PyRuntime} (call_llm_fn : gateway)
    (psi_case : json) (sys : string) (temp : pyfloat) (mdl : string)
    (max_retries : Z) :
  psi_case_to_cactus_raising psi_case (answering call_llm_fn) sys temp mdl
    max_retries
  = psi_case_to_cactus psi_case call_llm_fn sys temp mdl max_retries.
Proof.
  unfold psi_case_to_cactus_raising, psi_case_to_cactus.
  apply attempts_answering.
Qed.

(** X5. How a conversion fails, for a gateway that may raise and
    [max_retries >= 0]. Between 1 and [max_retries + 1] requests were
    sent, and either the gateway raised on the last of them and the
    converter passes that exception on unchanged, or the gateway answered
    the last one, the whole budget of [max_retries + 1] requests is
    spent, and the exception is the final [ValueError] built from the
    error of that last answer. So with a gateway that answers every
    request a failure always means the whole budget was spent. *)
Theorem convert_failure_spends_budget `{PyRuntime}
    (call_llm_fn : raising_gateway) (psi_case : json) (sys : string)
    (temp : pyfloat) (mdl : string) (max_retries : Z) (e : exn)
    (calls : list llm_call) :
  (0 <= max_retries)%Z ->
  psi_case_to_cactus_raising psi_case call_llm_fn sys temp mdl max_retries
  = (raise e, calls) ->
  (exists earlier req,
     calls = (earlier ++ [req])%list /\
     (1 <= Z.of_nat (length calls) <= max_retries + 1)%Z /\
     (call_llm_fn earlier req = raise e \/
      Z.of_nat (length calls) = (max_retries + 1)%Z /\
      exists answer e_last,
        call_llm_fn earlier req = ok answer /\
        parse_and_validate answer = raise e_last /\
        e = ValueError
              ("LLM output could not be validated after retries. Last error: "
               +:+ error_text e_last))) /\
  ((forall earlier req, exists answer, call_llm_fn earlier req = ok answer) ->
   Z.of_nat (length calls) = (max_retries + 1)%Z).
Proof.
  unfold psi_case_to_cactus_raising. intros Hretries Hrun.
  destruct (attempts_raising_failure sys (json_dumps psi_case) temp mdl
              call_llm_fn _ _ _ _ _ _ Hrun)
    as (earlier & req & -> & Hlen & Hwhy); [lia |].
  cbn [length] in Hlen.
  split.
  - exists earlier, req. split; [reflexivity |]. split; [lia |].
    destruct Hwhy as [Hraised | (Hall & Hlast)]; [now left | right].
    split; [| exact Hlast]. cbn [length] in Hall. lia.
  - intros Hanswers.
    destruct Hwhy as [Hraised | (Hall & _)].
    + destruct (Hanswers earlier req) as [answer Hanswer].
      rewrite Hanswer in Hraised. discriminate Hraised.
    + cbn [length] in Hall. lia.
Qed.

Lemma convert_failure_spends_budget_witness :
  exists first second,
    @psi_case_to_cactus_raising stub_runtime (JObj sample_record)
      disconnecting_gateway "Convert the case." 0%Z "gpt-4o-mini" 2
    = (raise (Raised "APIConnectionError" "Connection error."),
       [first; second]) /\
    disconnecting_gateway [first] second
    = raise (Raised "APIConnectionError" "Connection error.").
Proof.
  destruct (@psi_case_to_cactus_raising stub_runtime (JObj sample_record)
              disconnecting_gateway "Convert the case." 0%Z "gpt-4o-mini" 2)
    as [[e | obj] calls] eqn:Hrun; [| vm_compute in Hrun; discriminate Hrun].
  destruct (@convert_failure_spends_budget stub_runtime disconnecting_gateway
              (JObj sample_record) "Convert the case." 0%Z "gpt-4o-mini" 2
              e calls) as [(earlier & req & Hcalls & _ & _) _];
    [lia | exact Hrun |].
  vm_compute in Hrun. injection Hrun as <- <-.
  eexists _, _. split; reflexivity.
Defined.

(** X6. With a negative [max_retries] the loop body never runs: no
    request is sent and the converter raises at once, reporting "None" as
    the last error. *)
Theorem convert_negative_budget `{PyRuntime} (call_llm_fn : gateway)
    (psi_case : json) (sys : string) (temp : pyfloat) (mdl : string)
    (max_retries : Z) :
  (max_retries < 0)%Z ->
  psi_case_to_cactus psi_case call_llm_fn sys temp mdl max_retries
  = (raise (ValueError
              "LLM output could not be validated after retries. Last error: None"),
     []).
Proof.
  intros Hneg. unfold psi_case_to_cactus.
  now replace (Z.to_nat (max_retries + 1)) with 0%nat by lia.
Qed.

Lemma convert_negative_budget_witness :
  @psi_case_to_cactus stub_runtime (JObj sample_record) repairing_gateway
    "Convert the case." 0%Z "gpt-4o-mini" (-1)
  = (raise (ValueError
              "LLM output could not be validated after retries. Last error: None"),
     []).
Proof.
  apply (@convert_negative_budget stub_runtime). lia.
Defined.

(** X7. Every request of a run carries the caller's system prompt,
    temperature and model. The first one's user prompt is the serialized
    case; each later one's is the repair prompt built from the error of
    the answer to the request before it and from the serialized case. *)
Theorem convert_request_chain `{PyRuntime} (call_llm_fn : gateway)
    (psi_case : json) (sys : string) (temp : pyfloat) (mdl : string)
    (max_retries : Z) (i : nat) (req : llm_call) :
  let calls := snd (psi_case_to_cactus psi_case call_llm_fn sys temp mdl
                      max_retries) in
  calls !! i = Some req ->
  system_prompt req = sys /\ temperature req = temp /\ model req = mdl /\
  match i with
  | O => user_prompt req = json_dumps psi_case
  | S j =>
      exists prev e,
        calls !! j = Some prev /\
        parse_and_validate (call_llm_fn (take j calls) prev) = raise e /\
        user_prompt req =
          repair_prompt (Some (error_text e)) (json_dumps psi_case)
  end.
Proof.
  intros calls Hi. unfold calls, psi_case_to_cactus in *.
  destruct (attempts_requests call_llm_fn sys (json_dumps psi_case) temp mdl
              (Z.to_nat (max_retries + 1)) None [] i req Hi)
    as (err & -> & Hfirst & Hlater); [cbn; lia |].
  cbn [length] in *. repeat split.
  destruct i as [| j]; [reflexivity |].
  destruct Hlater as (prev & e & Hprev & Hfail & ->); [lia |].
  replace (S j - 1)%nat with j in * by lia.
  now exists prev, e.
Qed.

Lemma convert_request_chain_witness :
  exists req,
    snd (@psi_case_to_cactus stub_runtime (JObj sample_record)
           repairing_gateway "Convert the case." 0%Z "gpt-4o-mini" 2) !! 1%nat
    = Some req /\
    system_prompt req = "Convert the case.".
Proof.
  eexists. split; [vm_compute; reflexivity |].
  eapply (@convert_request_chain stub_runtime repairing_gateway
            (JObj sample_record) "Convert the case." 0%Z "gpt-4o-mini" 2 1%nat).
  vm_compute. reflexivity.
Defined.

End ConverterRuns.

(** ** Fenced answers *)

Module FenceFacts.
Import PyStr Json PsiToCactus Schema Records Doubles PyStrFacts ValidatorFacts.
#[local] Open Scope result_scope.

Lemma app_cons c a b : String c a +:+ b = String c (a +:+ b).
Proof. reflexivity. Qed.

Lemma rev_app_spec s t : String.rev_app s t = String.rev s +:+ t.
Proof.
  unfold String.rev. revert t.
  induction s as [| c s IH]; intros t; [reflexivity |].
  cbn [String.rev_app]. rewrite (IH (String c t)), (IH (String c EmptyString)).
  now rewrite app_assoc_text.
Qed.

Lemma rev_cons c s : String.rev (String c s) = String.rev s +:+ String c EmptyString.
Proof. unfold String.rev at 1. cbn [String.rev_app]. apply rev_app_spec. Qed.

Lemma rev_append s t : String.rev (s +:+ t) = String.rev t +:+ String.rev s.
Proof.
  induction s as [| c s IH].
  - change (EmptyString +:+ t) with t. now rewrite app_empty_r.
  - rewrite app_cons, !rev_cons, IH. now rewrite app_assoc_text.
Qed.

Lemma rev_involutive s : String.rev (String.rev s) = s.
Proof.
  induction s as [| c s IH]; [reflexivity |].
  rewrite rev_cons, rev_append, IH. reflexivity.
Qed.

Lemma startswith_append p s : startswith p (p +:+ s) = true.
Proof.
  induction p as [| c p IH]; [reflexivity |].
  rewrite app_cons. cbn [startswith]. now rewrite Ascii.eqb_refl, IH.
Qed.

Lemma drop_append p s : drop (String.length p) (p +:+ s) = s.
Proof. induction p as [| c p IH]; [now destruct s | exact IH]. Qed.

(** The leftmost cut, when the text starts with the separator. *)
Lemma cut_at_start sep s :
  cut sep (sep +:+ s) = Some (EmptyString, s).
Proof.
  destruct (sep +:+ s) eqn:E; cbn [cut];
    rewrite <- E, startswith_append, drop_append; reflexivity.
Qed.

(** The rightmost cut, when the text ends with the separator. *)
Lemma rcut_at_end sep s :
  rcut sep (s +:+ sep) = Some (s, EmptyString).
Proof.
  unfold rcut. rewrite rev_append, cut_at_start.
  now rewrite rev_involutive.
Qed.

Fixpoint has_char (c : ascii) (s : string) : bool :=
  match s with
  | EmptyString => false
  | String a s' => Ascii.eqb a c || has_char c s'
  end.

(** The leftmost cut at a character that the text before it lacks. *)
Lemma cut_at_char c a b :
  has_char c a = false ->
  cut (String c EmptyString) (a +:+ String c b) = Some (a, b).
Proof.
  induction a as [| x a IH]; intros Hno.
  - change (EmptyString +:+ String c b) with (String c EmptyString +:+ b).
    apply cut_at_start.
  - cbn [has_char] in Hno. apply orb_false_elim in Hno as [Hx Hno].
    rewrite app_cons. cbn [cut startswith]. rewrite Ascii.eqb_sym, Hx.
    cbn [andb]. now rewrite (IH Hno).
Qed.

Lemma cut_none_without_char c s :
  has_char c s = false -> cut (String c EmptyString) s = None.
Proof.
  induction s as [| x s IH]; intros Hno; [reflexivity |].
  cbn [has_char] in Hno. apply orb_false_elim in Hno as [Hx Hno].
  cbn [cut startswith]. rewrite Ascii.eqb_sym, Hx. cbn [andb].
  now rewrite (IH Hno).
Qed.

Lemma rstrip_append_blank s c :
  is_space c = true -> rstrip (s +:+ String c EmptyString) = rstrip s.
Proof.
  intros Hc. induction s as [| x s IH].
  - change (EmptyString +:+ String c EmptyString) with (String c EmptyString).
    cbn. now rewrite Hc.
  - rewrite app_cons. cbn [rstrip]. now rewrite IH.
Qed.

Lemma lstrip_append_blank s c :
  is_space c = true ->
  rstrip (lstrip (s +:+ String c EmptyString)) = rstrip (lstrip s).
Proof.
  intros Hc. induction s as [| x s IH].
  - change (EmptyString +:+ String c EmptyString) with (String c EmptyString).
    cbn. now rewrite Hc.
  - rewrite app_cons. cbn [lstrip]. destruct (is_space x); [exact IH |].
    rewrite <- app_cons. now apply rstrip_append_blank.
Qed.

(** A trailing blank does not survive [strip]. *)
Lemma strip_append_blank s c :
  is_space c = true -> strip (s +:+ String c EmptyString) = strip s.
Proof. apply lstrip_append_blank. Qed.

Lemma has_char_append c a b : has_char c (a +:+ b) = has_char c a || has_char c b.
Proof.
  induction a as [| x a IH]; [reflexivity |].
  rewrite app_cons. cbn [has_char]. now rewrite IH, orb_assoc.
Qed.

(** X8. A fenced answer is decoded from what stands between the fences:
    when the stripped answer is an opening fence with a one-line tag, a
    body and a closing fence on a line of its own, the decoder receives
    the stripped body. *)
Theorem parse_fenced_body `{PyRuntime} (text tag body : string) :
  strip text = "```" +:+ tag +:+ nl +:+ body +:+ nl +:+ "```" ->
  has_char nl_char tag = false ->
  _parse_json_strict text = json_loads (strip body).
Proof.
  intros Hstrip Htag. unfold _parse_json_strict. rewrite Hstrip.
  rewrite startswith_append.
  replace ("```" +:+ tag +:+ nl +:+ body +:+ nl +:+ "```")
    with (("```" +:+ tag) +:+ String nl_char (body +:+ nl +:+ "```"))
    by (now rewrite app_assoc_text).
  unfold nl at 1. rewrite cut_at_char.
  - replace (body +:+ nl +:+ "```") with ((body +:+ nl) +:+ "```")
      by (now rewrite app_assoc_text).
    rewrite rcut_at_end. unfold nl. now rewrite strip_append_blank.
  - rewrite has_char_append, Htag. reflexivity.
Qed.

Lemma parse_fenced_body_witness :
  @_parse_json_strict stub_runtime
    ("  ```json" +:+ nl +:+ " " +:+ sample_document +:+ nl +:+ "```" +:+ nl)
  = ok (JObj sample_record).
Proof.
  rewrite (@parse_fenced_body stub_runtime _ "json" (" " +:+ sample_document)).
  - vm_compute. reflexivity.
  - vm_compute. reflexivity.
  - reflexivity.
Defined.

(** X9. A fenced answer written on a single line is never decoded: with no
    newline after the opening fence the whole answer is dropped, and the
    decoder receives the empty text. *)
Theorem parse_fence_on_one_line `{PyRuntime} (text : string) :
  startswith "```" (strip text) = true ->
  has_char nl_char (strip text) = false ->
  _parse_json_strict text = json_loads EmptyString.
Proof.
  intros Hfence Hline. unfold _parse_json_strict. rewrite Hfence.
  unfold nl. now rewrite (cut_none_without_char _ _ Hline).
Qed.

Lemma parse_fence_on_one_line_witness :
  @_parse_json_strict stub_runtime ("```" +:+ sample_document +:+ "```")
  = raise (Raised "JSONDecodeError" "Expecting value: line 1 column 1 (char 0)").
Proof.
  rewrite (@parse_fence_on_one_line stub_runtime); reflexivity.
Defined.

End FenceFacts.

(** ** Case lookup *)

Module CasesFacts.
Import PyStr Json PsiToCactus Records Doubles Cases ValidatorFacts ConverterRuns.
#[local] Open Scope result_scope.

(** A renderer for the samples: Python's text for the few values used. *)
Definition sample_repr : PyRepr :=
  {| value_text _ := "<value>";
     str_list_text ids := "[" +:+ join ", " ids +:+ "]" |}.

Lemma dicts_of_objects cases : dicts_of (JObj <$> cases) = cases.
Proof.
  induction cases as [| c cases IH]; [reflexivity |].
  cbn. unfold dicts_of in IH. now rewrite IH.
Qed.

Lemma objects_of_dicts items :
  JObj <$> dicts_of items = filter (fun x => is_dict x = true) items.
Proof.
  induction items as [| x items IH]; [reflexivity |].
  rewrite filter_cons. unfold dicts_of in *.
  destruct x; cbn [omap list_omap is_dict fmap list_fmap];
    (destruct (decide _) as [Hd | Hd]; [try discriminate Hd | try (now destruct Hd)]);
    rewrite <- IH; reflexivity.
Qed.

(** X10. From a JSON list, [_ensure_list_of_cases] keeps exactly the
    entries that are objects, in their order, and drops every other
    entry; a list of objects comes back unchanged. *)
Theorem ensure_cases_keeps_objects (items : list json)
    (cases : list (gmap string json)) :
  (exists kept,
     _ensure_list_of_cases (JArr items) = ok kept /\
     JObj <$> kept = filter (fun x => is_dict x = true) items) /\
  _ensure_list_of_cases (JArr (JObj <$> cases)) = ok cases.
Proof.
  split.
  - exists (dicts_of items). split; [reflexivity | apply objects_of_dicts].
  - cbn. now rewrite dicts_of_objects.
Qed.

Lemma first_container_split pre key post items m :
  (forall k, k ∈ pre -> forall l, m !! k <> Some (JArr l)) ->
  m !! key = Some (JArr items) ->
  first_container (pre ++ key :: post) m = Some (dicts_of items).
Proof.
  induction pre as [| k0 pre IH]; intros Hpre Hkey.
  - cbn. now rewrite Hkey.
  - cbn. pose proof (Hpre k0 (list_elem_of_here _ _)) as Hk0.
    rewrite IH; [| intros k Hk; apply Hpre; now apply list_elem_of_further
                 | exact Hkey].
    destruct (m !! k0) as [[| | | | | l |] |]; try reflexivity.
    now destruct (Hk0 l).
Qed.

(** X11. In a JSON object the container keys are tried in the order
    cases, patients, data, items, examples: the first of them that holds
    a list supplies the cases, whatever the later keys hold and whether
    or not the object has an id; a container key holding something else
    is passed over. *)
Theorem ensure_cases_first_list (m : gmap string json)
    (pre post : list string) (key : string) (items : list json) :
  container_keys = (pre ++ key :: post)%list ->
  (forall k, k ∈ pre -> forall l, m !! k <> Some (JArr l)) ->
  m !! key = Some (JArr items) ->
  _ensure_list_of_cases (JObj m) = ok (dicts_of items).
Proof.
  intros Hkeys Hpre Hkey. cbn [_ensure_list_of_cases]. rewrite Hkeys.
  now rewrite (first_container_split pre key post items m Hpre Hkey).
Qed.

Lemma ensure_cases_first_list_witness :
  _ensure_list_of_cases
    (JObj (list_to_map
             [("cases", JStr "see patients");
              ("patients", JArr [JObj sample_plan; JInt 3]);
              ("data", JArr []); ("id", JStr "p-1")]))
  = ok [sample_plan].
Proof.
  apply (ensure_cases_first_list _ ["cases"] ["data"; "items"; "examples"]
           "patients" [JObj sample_plan; JInt 3]).
  - reflexivity.
  - intros k Hk l. apply list_elem_of_singleton in Hk as ->.
    vm_compute. discriminate.
  - vm_compute. reflexivity.
Defined.

Section WithRepr.
Context `{PyRepr}.

Lemma find_case_first all_cases rest case_id c :
  find_case all_cases rest case_id = ok c <->
  exists pre post,
    rest = (pre ++ c :: post)%list /\
    case_key c = strip case_id /\
    forall c', c' ∈ pre -> case_key c' <> strip case_id.
Proof.
  induction rest as [| c0 rest IH].
  - split; [discriminate |].
    intros (pre & post & Hsplit & _). now destruct pre.
  - cbn [find_case].
    destruct (String.eqb_spec (case_key c0) (strip case_id)) as [Heq | Hne].
    + split.
      * intros [= <-]. exists [], rest. repeat split; [exact Heq |].
        intros c' Hc'. now apply elem_of_nil in Hc'.
      * intros (pre & post & Hsplit & Hkey & Hpre).
        destruct pre as [| p pre]; cbn in Hsplit.
        -- now injection Hsplit as ->.
        -- injection Hsplit as -> _.
           destruct (Hpre p (list_elem_of_here _ _) Heq).
    + rewrite IH. split.
      * intros (pre & post & -> & Hkey & Hpre).
        exists (c0 :: pre), post. repeat split; [exact Hkey |].
        intros c' Hc'. apply elem_of_cons in Hc' as [-> | Hc'];
          [exact Hne | now apply Hpre].
      * intros (pre & post & Hsplit & Hkey & Hpre).
        destruct pre as [| p pre]; cbn in Hsplit.
        -- injection Hsplit as -> _. contradiction.
        -- injection Hsplit as -> ->. exists pre, post.
           repeat split; [exact Hkey |].
           intros c' Hc'. apply Hpre. now apply list_elem_of_further.
Qed.


End WithRepr.

(** X12. [get_case_by_id] returns a case exactly when it is the first one
    of the list whose id, as text and stripped of surrounding blanks,
    equals the stripped [case_id]. *)
Theorem get_case_first_match `{PyRepr} (cases : list (gmap string json))
    (case_id : string) (c : gmap string json) :
  get_case_by_id cases case_id = ok c <->
  exists pre post,
    cases = (pre ++ c :: post)%list /\
    case_key c = strip case_id /\
    forall c', c' ∈ pre -> case_key c' <> strip case_id.
Proof. apply find_case_first. Qed.




(** X14. A case without an id is looked up under the empty id: a blank
    [case_id] returns the first case whose id is missing or blank. *)
Theorem blank_id_selects_case_without_id `{PyRepr}
    (pre post : list (gmap string json)) (c : gmap string json)
    (case_id : string) :
  Schema.has_visible_char case_id = false ->
  c !! "id" = None ->
  (forall c', c' ∈ pre -> case_key c' <> EmptyString) ->
  get_case_by_id (pre ++ c :: post) case_id = ok c.
Proof.
  intros Hblank Hid Hpre. apply find_case_first.
  rewrite (ConverterFacts.strip_blank _ Hblank).
  exists pre, post. repeat split; [| exact Hpre].
  unfold case_key. now rewrite Hid.
Qed.

Lemma blank_id_selects_case_without_id_witness :
  @get_case_by_id sample_repr
    [ {["id" := JStr "a"]}; {["name" := JStr "Laura"]} ] "  "
  = ok {["name" := JStr "Laura"]}.
Proof.
  apply (@blank_id_selects_case_without_id sample_repr
           [ {["id" := JStr "a"]} ] [] {["name" := JStr "Laura"]} "  ").
  - reflexivity.
  - vm_compute. reflexivity.
  - intros c' Hc'. apply list_elem_of_singleton in Hc' as ->.
    vm_compute. discriminate.
Defined.

(** What a run of the converter guarantees, for any gateway. *)
Lemma convert_run_facts `{PyRuntime} (call_llm_fn : gateway)
    (psi_case : json) (sys : string) (temp : pyfloat) (mdl : string)
    (max_retries : Z) :
  let run := psi_case_to_cactus psi_case call_llm_fn sys temp mdl max_retries in
  length (snd run) <= Z.to_nat (max_retries + 1) /\
  (forall obj, fst run = ok obj -> _validate_cactus_shape obj = ok tt) /\
  (forall req, req ∈ snd run ->
     system_prompt req = sys /\ temperature req = temp /\ model req = mdl).
Proof.
  intros run. unfold run, psi_case_to_cactus.
  destruct (attempts_outcome call_llm_fn sys (json_dumps psi_case) temp mdl
              (Z.to_nat (max_retries + 1)) 0%nat None [])
    as (sent & Hsnd & Hlen & Hres).
  split; [rewrite Hsnd; exact Hlen |]. split.
  - intros obj Hobj. rewrite Hobj in Hres.
    destruct Hres as (earlier & req & _ & _ & Hok).
    now apply parse_and_validate_ok in Hok.
  - intros req Hreq. apply list_elem_of_lookup in Hreq as [i Hi].
    destruct (attempts_requests call_llm_fn sys (json_dumps psi_case) temp mdl
                (Z.to_nat (max_retries + 1)) None [] i req Hi)
      as (err & -> & _); [cbn; lia |].
    now repeat split.
Qed.

(** X15. The file-level conversion never calls the gateway unless the
    case file was read, interpreted as cases, the case found and the
    prompt file read; it then sends at most 3 requests, each with the
    prompt file's text as system prompt, and a record it returns has
    passed the validator. *)
Theorem file_conversion_outcome `{PyRepr} `{PyRuntime}
    (load_json : string -> result json) (load_text : string -> result string)
    (psi_json_path case_id system_prompt_path : string)
    (call_llm_fn : gateway) (temp : pyfloat) (mdl : string) :
  let run := convert_psi_file_case_id_to_cactus load_json load_text
               psi_json_path case_id system_prompt_path call_llm_fn temp mdl in
  length (snd run) <= 3 /\
  (forall obj, fst run = ok obj -> _validate_cactus_shape obj = ok tt) /\
  (forall req, req ∈ snd run ->
     exists data cases psi_case prompt,
       load_json psi_json_path = ok data /\
       _ensure_list_of_cases data = ok cases /\
       get_case_by_id cases case_id = ok psi_case /\
       load_text system_prompt_path = ok prompt /\
       system_prompt req = prompt /\ temperature req = temp /\
       model req = mdl).
Proof.
  intros run. unfold run, convert_psi_file_case_id_to_cactus.
  destruct (load_json psi_json_path) as [e | data] eqn:E1;
    [cbn; repeat split; [lia | discriminate | intros ? []%elem_of_nil] |].
  destruct (_ensure_list_of_cases data) as [e | cases] eqn:E2;
    [cbn; repeat split; [lia | discriminate | intros ? []%elem_of_nil] |].
  destruct (get_case_by_id cases case_id) as [e | psi_case] eqn:E3;
    [cbn; repeat split; [lia | discriminate | intros ? []%elem_of_nil] |].
  destruct (load_text system_prompt_path) as [e | prompt] eqn:E4;
    [cbn; repeat split; [lia | discriminate | intros ? []%elem_of_nil] |].
  destruct (convert_run_facts call_llm_fn (JObj psi_case) prompt temp mdl 2)
    as (Hlen & Hok & Hreq).
  split; [exact Hlen |]. split; [exact Hok |].
  intros req Hin. exists data, cases, psi_case, prompt.
  destruct (Hreq req Hin) as (? & ? & ?). now repeat split.
Qed.

End CasesFacts.

(** ** Counseling session: replies, planning and runs *)

Module SessionMore.
Import PyStr Json CamelAgent SessionOps Doubles PyStrFacts FenceFacts SessionFacts.

Lemma has_char_replace_gone c s :
  has_char c (replace_char c EmptyString s) = false.
Proof.
  induction s as [| a s IH]; [reflexivity |].
  cbn [replace_char]. destruct (Ascii.eqb a c) eqn:E; [exact IH |].
  cbn [has_char]. now rewrite E, IH.
Qed.

Lemma has_char_replace_other c d new s :
  has_char c new = false -> has_char c s = false ->
  has_char c (replace_char d new s) = false.
Proof.
  intros Hnew. induction s as [| a s IH]; intros Hs; [reflexivity |].
  cbn [has_char] in Hs. apply orb_false_elim in Hs as [Ha Hs].
  cbn [replace_char]. destruct (Ascii.eqb a d).
  - now rewrite has_char_append, Hnew, IH.
  - cbn [has_char]. now rewrite Ha, IH.
Qed.

Lemma has_char_lstrip c s : has_char c s = false -> has_char c (lstrip s) = false.
Proof.
  induction s as [| a s IH]; intros Hs; [reflexivity |].
  cbn [lstrip]. destruct (is_space a); [| exact Hs].
  cbn [has_char] in Hs. apply orb_false_elim in Hs as [_ Hs]. now apply IH.
Qed.

Lemma has_char_rstrip c s : has_char c s = false -> has_char c (rstrip s) = false.
Proof.
  induction s as [| a s IH]; intros Hs; [reflexivity |].
  cbn [has_char] in Hs. apply orb_false_elim in Hs as [Ha Hs].
  cbn [rstrip]. destruct (is_empty (rstrip s) && is_space a); [reflexivity |].
  cbn [has_char]. now rewrite Ha, IH.
Qed.

Lemma has_char_strip c s : has_char c s = false -> has_char c (strip s) = false.
Proof. intros Hs. now apply has_char_rstrip, has_char_lstrip. Qed.

(** X16. The counselor reply that [next_utterance] returns holds no
    newline, no backslash and no double quote, and has no blank at either
    end, whatever the endpoint answered. *)
Theorem clean_utterance_is_clean (raw : string) :
  has_char nl_char (clean_utterance raw) = false /\
  has_char backslash_char (clean_utterance raw) = false /\
  has_char dquote_char (clean_utterance raw) = false /\
  strip (clean_utterance raw) = clean_utterance raw.
Proof.
  unfold clean_utterance.
  set (text := match cut "'message':" raw with
               | Some (_, rest) => before_first ", {" rest
               | None => raw
               end).
  set (tail := after_last (String.length text) "Counselor:" text).
  assert (Hnl : has_char nl_char (replace_char nl_char " " tail) = false).
  { clearbody tail. induction tail as [| a s IH]; [reflexivity |].
    cbn [replace_char]. destruct (Ascii.eqb a nl_char) eqn:E.
    - exact IH.
    - cbn [has_char]. now rewrite E, IH. }
  repeat split.
  - apply has_char_strip.
    do 2 (apply has_char_replace_other; [reflexivity |]). exact Hnl.
  - apply has_char_strip.
    apply has_char_replace_other; [reflexivity |]. apply has_char_replace_gone.
  - apply has_char_strip, has_char_replace_gone.
  - apply strip_idem.
Qed.

Import Schema ValidatorFacts.

Lemma blank_head c rest :
  has_visible_char (String c rest) = false ->
  is_space c = true /\ has_visible_char rest = false.
Proof.
  cbn [has_visible_char]. intros Hb. apply orb_false_elim in Hb as [Hc Hr].
  split; [now apply negb_false_iff in Hc | exact Hr].
Qed.

(** A blank text holds no separator that starts with a visible character. *)
Lemma cut_blank h t raw :
  is_space h = false -> has_visible_char raw = false ->
  cut (String h t) raw = None.
Proof.
  intros Hh. induction raw as [| a raw IH]; intros Hb; [reflexivity |].
  apply blank_head in Hb as [Ha Hb].
  cbn [cut startswith].
  destruct (Ascii.eqb_spec h a) as [-> | _]; [congruence |].
  cbn [andb]. now rewrite (IH Hb).
Qed.

Lemma blank_without_newlines raw :
  has_visible_char raw = false ->
  has_visible_char (replace_char nl_char EmptyString raw) = false.
Proof.
  induction raw as [| a raw IH]; intros Hb; [reflexivity |].
  apply blank_head in Hb as [Ha Hb].
  cbn [replace_char]. destruct (Ascii.eqb a nl_char); [now apply IH |].
  cbn [has_visible_char]. now rewrite Ha, IH.
Qed.

Lemma parse_plan_blank raw :
  has_visible_char raw = false ->
  fst (parse_plan raw) = None /\ or_empty (snd (parse_plan raw)) = EmptyString.
Proof.
  intros Hb. unfold parse_plan. cbn [fst snd]. split.
  - unfold before_first. rewrite (cut_blank _ _ raw) by (reflexivity || exact Hb).
    rewrite (ConverterFacts.strip_blank _ (blank_without_newlines _ Hb)).
    reflexivity.
  - change ("Counseling planning:" +:+ nl)
      with (String "C" ("ounseling planning:" +:+ nl)).
    rewrite (cut_blank _ _ raw) by (reflexivity || exact Hb).
    destruct (truthy raw); [| reflexivity].
    cbn. now rewrite (ConverterFacts.strip_blank _ Hb).
Qed.

(** X17. When the planner's answer is blank, [ensure_plan] still returns
    normally after its one request, but stores no technique and the empty
    plan, so the session keeps counting as unplanned. *)
Theorem blank_plan_answer_leaves_unplanned (llm_invoke : endpoint)
    (s : session) (sent : list string) :
  let prompt := format_plan_prompt (or_empty (intake_form s))
                  (or_empty (reason s)) (_history_to_text (history s)) in
  is_set (intake_form s) = true -> is_set (reason s) = true ->
  is_set (cbt_plan s) = false ->
  has_visible_char (llm_invoke sent prompt) = false ->
  exists s',
    ensure_plan llm_invoke (s, sent) = (ok tt, (s', (sent ++ [prompt])%list)) /\
    cbt_technique s' = None /\ cbt_plan s' = Some EmptyString /\
    is_set (cbt_plan s') = false /\ history s' = history s.
Proof.
  intros prompt Hi Hr Hp Hblank. unfold ensure_plan.
  rewrite Hi, Hr, Hp. cbn [negb orb]. fold prompt.
  destruct (parse_plan_blank _ Hblank) as [Htech Hplan].
  destruct (parse_plan (llm_invoke sent prompt)) as [technique plan].
  cbn [fst snd] in *. subst technique. rewrite Hplan.
  eexists. split; [reflexivity |]. now repeat split.
Qed.

Lemma blank_plan_answer_leaves_unplanned_witness :
  exists s' sent',
    ensure_plan (fun _ _ => "  ")
      (set_intake "Name: Laura" "I feel anxious." fresh_session, [])
    = (ok tt, (s', sent')) /\
    cbt_plan s' = Some EmptyString.
Proof.
  destruct (blank_plan_answer_leaves_unplanned (fun _ _ => "  ")
              (set_intake "Name: Laura" "I feel anxious." fresh_session) [])
    as (s' & Hrun & _ & Hplan & _); try reflexivity.
  now eexists _, _.
Defined.

(** X18. [start] overwrites the session before it checks anything: the
    intake form and the reason are replaced and the earlier history is
    discarded for the greeting, followed by the first client message when
    one is given, even when [start] raises because the intake form or the
    reason is empty; it raises exactly in that case. *)
Theorem start_overwrites_session (llm_invoke : endpoint) (s : session)
    (sent : list string) (intake reason_text first : string) :
  let run := start llm_invoke intake reason_text first (s, sent) in
  intake_form (fst (snd run)) = Some intake /\
  reason (fst (snd run)) = Some reason_text /\
  history (fst (snd run)) =
    {| turn_role := Counselor; message := greeting |} ::
    (if truthy first
     then [ {| turn_role := Client; message := first |} ] else []) /\
  fst run =
    (if truthy intake && truthy reason_text then ok tt
     else raise (ValueError
                   "intake_form and reason must be set before planning.")).
Proof.
  intros run. unfold run, start, ensure_plan.
  cbn [set_history set_intake intake_form reason cbt_plan history is_set].
  destruct (truthy intake), (truthy reason_text); cbn [negb orb andb];
    try (destruct (truthy first); now repeat split).
  destruct (is_set (cbt_plan s));
    [destruct (truthy first); now repeat split |].
  destruct (parse_plan _) as [technique plan].
  destruct (truthy first); now repeat split.
Qed.

(** X19. [start] on a session that already has a plan sends nothing to
    the endpoint and keeps that plan and technique, although the intake
    form, the reason and the history are replaced. *)
Theorem start_keeps_existing_plan (llm_invoke : endpoint) (s : session)
    (sent : list string) (intake reason_text first : string) :
  is_set (cbt_plan s) = true ->
  truthy intake = true -> truthy reason_text = true ->
  exists s',
    start llm_invoke intake reason_text first (s, sent) = (ok tt, (s', sent)) /\
    cbt_plan s' = cbt_plan s /\ cbt_technique s' = cbt_technique s /\
    intake_form s' = Some intake /\ reason s' = Some reason_text.
Proof.
  intros Hp Hi Hr. unfold start, ensure_plan.
  cbn [set_history set_intake intake_form reason cbt_plan history is_set].
  rewrite Hi, Hr, Hp. cbn [negb orb]. eexists. split; [reflexivity |].
  now repeat split.
Qed.

Lemma start_keeps_existing_plan_witness :
  exists s',
    start scripted_endpoint "Name: Ana" "I cannot sleep." EmptyString
      started_world = (ok tt, (s', snd started_world)) /\
    cbt_plan s' = Some "Name the feared outcome, then weigh the evidence.".
Proof.
  destruct (start_keeps_existing_plan scripted_endpoint (fst started_world)
              (snd started_world) "Name: Ana" "I cannot sleep." EmptyString)
    as (s' & Hrun & Hplan & _); try (vm_compute; reflexivity).
  exists s'. split; [exact Hrun |]. rewrite Hplan. vm_compute. reflexivity.
Defined.

(** Over an endpoint that always answers, [step_raising] is [step]. *)
Lemma step_answering (llm_invoke : endpoint) (msg : string) (w : world) :
  step_raising (answering_endpoint llm_invoke) msg w = step llm_invoke msg w.
Proof.
  destruct w as [s sent].
  unfold step_raising, step, ensure_plan_raising, ensure_plan, next_utterance,
    answering_endpoint, ok.
  destruct (negb (is_set (intake_form s)) || negb (is_set (reason s)));
    [reflexivity |].
  destruct (is_set (cbt_plan s)); [reflexivity |].
  now destruct (parse_plan _).
Qed.

Lemma ensure_plan_answering (llm_invoke : endpoint) (w : world) :
  ensure_plan_raising (answering_endpoint llm_invoke) w
  = ensure_plan llm_invoke w.
Proof.
  destruct w as [s sent].
  unfold ensure_plan_raising, ensure_plan, answering_endpoint, ok.
  destruct (negb (is_set (intake_form s)) || negb (is_set (reason s)));
    [reflexivity |].
  destruct (is_set (cbt_plan s)); [reflexivity |].
  now destruct (parse_plan _).
Qed.




End SessionMore.

(** ** Dialogue helpers *)

Module HelpersFacts.
Import Json Cases CamelAgent SessionOps Helpers Policy.
#[local] Open Scope Z_scope.

Lemma slice_from_last {A} (k : Z) (l : list A) :
  0 < k -> slice_from (- k) l = drop (length l - Z.to_nat k) l.
Proof.
  intros Hk. unfold slice_from.
  destruct (Z.ltb_spec (- k) 0) as [_ | Hge]; [| lia].
  f_equal. lia.
Qed.

Lemma slice_from_zero {A} (l : list A) : slice_from (- 0) l = l.
Proof.
  unfold slice_from. change (- 0 <? 0) with false. cbv iota.
  now replace (Z.min (- 0) (Z.of_nat (length l))) with 0 by lia.
Qed.

Lemma slice_from_forward {A} (k : Z) (l : list A) :
  k < 0 -> slice_from (- k) l = drop (Z.to_nat (- k)) l.
Proof.
  intros Hk. unfold slice_from.
  destruct (Z.ltb_spec (- k) 0) as [Hlt | _]; [lia |].
  destruct (Z.min_spec (- k) (Z.of_nat (length l))) as [[_ ->] | [Hle ->]];
    [reflexivity |].
  rewrite Nat2Z.id, !drop_ge; [reflexivity | lia | lia].
Qed.

(** The trimmed history, for a positive [keep_last]. *)
Lemma trim_positive {A} (history : list A) (keep_last : Z) :
  0 < keep_last ->
  trim_camel_history history keep_last =
  (take 1 history ++
   drop (1 + (length history - 1 - Z.to_nat keep_last)) history)%list.
Proof.
  intros Hk. destruct history as [| x rest]; [reflexivity |].
  unfold trim_camel_history. rewrite slice_from_last by exact Hk.
  cbn [take app length].
  replace (1 + (S (length rest) - 1 - Z.to_nat keep_last))%nat
    with (S (length rest - Z.to_nat keep_last)) by lia.
  reflexivity.
Qed.

(** X21. With a positive [keep_last], [trim_camel_history] keeps the first
    entry and the last [keep_last] entries after it: the result has
    [min (len, keep_last + 1)] entries, starts like the history, ends
    like it, is the history itself when that is short enough, and
    trimming it again changes nothing. *)
Theorem trim_keeps_greeting_and_recent {A} (history : list A)
    (keep_last : Z) :
  0 < keep_last ->
  length (trim_camel_history history keep_last)
    = Nat.min (length history) (S (Z.to_nat keep_last)) /\
  take 1 (trim_camel_history history keep_last) = take 1 history /\
  drop 1 (trim_camel_history history keep_last) `suffix_of` history /\
  ((length history <= S (Z.to_nat keep_last))%nat ->
   trim_camel_history history keep_last = history) /\
  trim_camel_history (trim_camel_history history keep_last) keep_last
    = trim_camel_history history keep_last.
Proof.
  intros Hk.
  assert (Hshort : forall h : list A,
            (length h <= S (Z.to_nat keep_last))%nat ->
            trim_camel_history h keep_last = h).
  { intros h Hlen. rewrite trim_positive by exact Hk.
    replace (1 + (length h - 1 - Z.to_nat keep_last))%nat with 1%nat by lia.
    apply take_drop. }
  assert (Hlen : length (trim_camel_history history keep_last)
                 = Nat.min (length history) (S (Z.to_nat keep_last))).
  { rewrite trim_positive by exact Hk.
    rewrite length_app, length_take, length_drop. lia. }
  split; [exact Hlen |]. split; [| split; [| split; [apply Hshort |]]].
  - rewrite trim_positive by exact Hk.
    destruct history as [| x rest]; [reflexivity |]. reflexivity.
  - rewrite trim_positive by exact Hk.
    destruct history as [| x rest]; [now exists [] |].
    change (drop 1 (take 1 (x :: rest) ++
                    drop (1 + (length (x :: rest) - 1 - Z.to_nat keep_last))
                         (x :: rest)))
      with (drop (length (x :: rest) - 1 - Z.to_nat keep_last) rest).
    apply suffix_cons_r, suffix_drop.
  - apply Hshort. rewrite Hlen. lia.
Qed.

Lemma trim_keeps_greeting_and_recent_witness :
  trim_camel_history [0; 1; 2; 3; 4; 5]%nat 2 = [0; 4; 5]%nat /\
  length (trim_camel_history [0; 1; 2; 3; 4; 5]%nat 2) = 3%nat.
Proof.
  split; [reflexivity |].
  destruct (trim_keeps_greeting_and_recent [0; 1; 2; 3; 4; 5]%nat 2)
    as [Hlen _]; [lia |].
  rewrite Hlen. reflexivity.
Defined.

(** X22. [keep_last = 0] trims nothing: the slice [[-0:]] is the whole
    list, so the history is returned as it is. A negative [keep_last]
    keeps the first entry and drops that many entries after it. *)
Theorem trim_zero_keeps_everything {A} (history : list A) (keep_last : Z) :
  trim_camel_history history 0 = history /\
  (keep_last < 0 ->
   trim_camel_history history keep_last =
   (take 1 history ++ drop (S (Z.to_nat (- keep_last))) history)%list).
Proof.
  split.
  - destruct history as [| x rest]; [reflexivity |].
    unfold trim_camel_history. now rewrite slice_from_zero.
  - intros Hneg. destruct history as [| x rest].
    + now rewrite drop_nil.
    + unfold trim_camel_history.
      rewrite slice_from_forward by exact Hneg. reflexivity.
Qed.

Lemma trim_zero_keeps_everything_witness :
  trim_camel_history [0; 1; 2; 3; 4; 5]%nat (-2) = [0; 3; 4; 5]%nat.
Proof.
  destruct (trim_zero_keeps_everything [0; 1; 2; 3; 4; 5]%nat (-2))
    as [_ Hneg].
  rewrite Hneg by lia. reflexivity.
Defined.

(** X23. [format_dialogue] renders only the last [last_n] turns when
    [last_n] is positive: whatever came before them changes nothing. With
    [last_n = 0] the slice is the whole list, so every turn is rendered.
    A turn whose role is not "assistant" is labelled as the client. *)
Theorem format_dialogue_window (older recent : list chat_message)
    (last_n : Z) :
  (0 < last_n -> Z.of_nat (length recent) = last_n ->
   format_dialogue (older ++ recent) last_n = format_dialogue recent last_n) /\
  format_dialogue recent 0
    = format_dialogue recent (Z.of_nat (length recent) + 1) /\
  (forall msg, role msg <> "assistant" -> speaker msg = "Client").
Proof.
  split; [| split].
  - intros Hpos Hlen. unfold format_dialogue.
    rewrite !slice_from_last by exact Hpos.
    rewrite length_app.
    replace (length older + length recent - Z.to_nat last_n)%nat
      with (length older) by lia.
    replace (length recent - Z.to_nat last_n)%nat with 0%nat by lia.
    now rewrite drop_app_length.
  - unfold format_dialogue. rewrite slice_from_zero.
    rewrite slice_from_last by lia.
    now replace (length recent - Z.to_nat (Z.of_nat (length recent) + 1))%nat
      with 0%nat by lia.
  - intros msg Hrole. unfold speaker.
    apply String.eqb_neq in Hrole. now rewrite Hrole.
Qed.

Lemma format_dialogue_window_witness :
  format_dialogue
    [ {| role := "user"; content := "hi" |};
      {| role := "assistant"; content := "hello" |};
      {| role := "system"; content := "note" |} ] 2
  = "Therapist: hello" +:+ PyStr.nl +:+ "Client: note".
Proof.
  destruct (format_dialogue_window
              [ {| role := "user"; content := "hi" |} ]
              [ {| role := "assistant"; content := "hello" |};
                {| role := "system"; content := "note" |} ] 2) as [Hwin _].
  cbn [app] in Hwin. rewrite Hwin by (reflexivity || lia). reflexivity.
Defined.

Lemma next_phase_cases cur openness :
  next_phase cur openness = cur \/
  (cur = "trust_building" /\ 3 <= openness /\
   next_phase cur openness = "case_conceptualization") \/
  (cur = "case_conceptualization" /\ 4 <= openness /\
   next_phase cur openness = "solution_exploration").
Proof.
  unfold next_phase. cbn [PHASE_UPGRADE_AT String.eqb Ascii.eqb Bool.eqb reaches].
  destruct (String.eqb_spec cur "trust_building") as [-> | H1].
  - cbn. destruct (Z.leb_spec 3 openness); [right; left | left]; auto.
  - cbn [andb]. destruct (String.eqb_spec cur "case_conceptualization") as [-> | H2].
    + cbn. destruct (Z.leb_spec 4 openness); [right; right | left]; auto.
    + now left.
Qed.

Lemma phase_le_refl cur : phase_le cur cur.
Proof. unfold phase_le. destruct (phase_rank cur); [lia | reflexivity]. Qed.

Lemma phase_after_cases scores : forall cur,
  phase_after scores cur = cur \/
  (cur = "trust_building" /\
   (phase_after scores cur = "case_conceptualization" \/
    phase_after scores cur = "solution_exploration")) \/
  (cur = "case_conceptualization" /\
   phase_after scores cur = "solution_exploration").
Proof.
  unfold phase_after.
  induction scores as [| o scores IH]; intros cur; [now left |].
  cbn [fold_left].
  destruct (next_phase_cases cur o) as [-> | [(-> & _ & ->) | (-> & _ & ->)]].
  - apply IH.
  - destruct (IH "case_conceptualization") as [-> | [(Habs & _) | (_ & ->)]];
      [right; left; auto | discriminate Habs | right; left; auto].
  - destruct (IH "solution_exploration") as [-> | [(Habs & _) | (Habs & _)]];
      [right; right; auto | discriminate Habs | discriminate Habs].
Qed.

(** X24. Over any series of trust evaluations the phase never moves
    backwards, and "solution_exploration" is never left. One evaluation
    advances by at most one phase, so "trust_building" cannot reach
    "solution_exploration" in a single evaluation, whatever the score;
    two evaluations reach it exactly when the first score is at least 3
    and the second at least 4. *)
Theorem phase_never_regresses (scores : list Z) (cur : string) (o1 o2 : Z) :
  phase_le cur (phase_after scores cur) /\
  phase_after scores "solution_exploration" = "solution_exploration" /\
  next_phase "trust_building" o1 <> "solution_exploration" /\
  (phase_after [o1; o2] "trust_building" = "solution_exploration"
   <-> 3 <= o1 /\ 4 <= o2).
Proof.
  split; [| split; [| split]].
  - destruct (phase_after_cases scores cur)
      as [-> | [(-> & [-> | ->]) | (-> & ->)]];
      [apply phase_le_refl | | |]; unfold phase_le; cbn; lia.
  - destruct (phase_after_cases scores "solution_exploration")
      as [H | [(Habs & _) | (Habs & _)]];
      [exact H | discriminate Habs | discriminate Habs].
  - unfold next_phase. cbn. now destruct (3 <=? o1).
  - unfold phase_after, next_phase. cbn.
    destruct (Z.leb_spec 3 o1), (Z.leb_spec 4 o2); cbn;
      split; intros Hx;
      first [discriminate Hx | reflexivity | lia
            | destruct (3 <=? o2); discriminate Hx].
Qed.


(** *** Choosing a patient *)

(** [str(p.get("id"))] for a patient that is a dict. *)
Definition patient_key `{PyRepr} (p : gmap string json) : string :=
  py_str (default JNull (p !! "id")).

Lemma find_patient_step `{PyRepr} (c : gmap string json) rest id :
  find_patient (JObj c :: rest) id =
  if String.eqb (patient_key c) id then ok (JObj c) else find_patient rest id.
Proof. reflexivity. Qed.

Lemma find_patient_found `{PyRepr} (patients : list (gmap string json)) id p :
  find_patient (JObj <$> patients) id = ok p <->
  exists before c after,
    p = JObj c /\ patients = (before ++ c :: after)%list /\
    patient_key c = id /\ Forall (fun b => patient_key b <> id) before.
Proof.
  induction patients as [| c0 rest IH].
  - split; [discriminate |].
    intros (before & c & after & _ & Habs & _). now destruct before.
  - rewrite fmap_cons, find_patient_step.
    destruct (String.eqb_spec (patient_key c0) id) as [Hhit | Hmiss].
    + split.
      * intros [= <-]. exists [], c0, rest. repeat split; auto.
      * intros (before & c & after & -> & Hl & _ & Hbefore).
        destruct before as [| b before]; cbn in Hl.
        -- now injection Hl as -> _.
        -- injection Hl as <- _. now inversion Hbefore.
    + rewrite IH. split.
      * intros (before & c & after & -> & -> & Hc & Hbefore).
        exists (c0 :: before), c, after. repeat split; auto.
      * intros (before & c & after & -> & Hl & Hc & Hbefore).
        destruct before as [| b before]; cbn in Hl.
        -- injection Hl as -> _. contradiction.
        -- injection Hl as <- ->. inversion Hbefore; subst.
           now exists before, c, after.
Qed.

Lemma find_patient_missing `{PyRepr} (patients : list (gmap string json)) id :
  find_patient (JObj <$> patients) id
    = raise (ValueError ("patient_id " +:+ id +:+ " not found")) <->
  Forall (fun c => patient_key c <> id) patients.
Proof.
  induction patients as [| c0 rest IH].
  - split; [constructor | reflexivity].
  - rewrite fmap_cons, find_patient_step.
    destruct (String.eqb_spec (patient_key c0) id) as [Hhit | Hmiss].
    + split; [discriminate |]. intros Hall. now inversion Hall.
    + rewrite IH. split.
      * now constructor.
      * intros Hall. now inversion Hall.
Qed.

(** X25. With a [patient_id], [pick_patient] on a list of patient
    objects returns the first patient whose id, as text, equals it, and
    raises the ValueError naming the id exactly when no patient has it.
    The [index] argument plays no part: an id that is not found raises
    even when the index is valid. A patient without an id is the one
    found by the id "None". *)
Theorem pick_patient_by_id `{PyRepr} (patients : list (gmap string json))
    (id : string) (index : option Z) :
  (forall p,
     pick_patient (JObj <$> patients) (Some id) index = ok p <->
     exists before c after,
       p = JObj c /\ patients = (before ++ c :: after)%list /\
       patient_key c = id /\ Forall (fun b => patient_key b <> id) before) /\
  (pick_patient (JObj <$> patients) (Some id) index
     = raise (ValueError ("patient_id " +:+ id +:+ " not found")) <->
   Forall (fun c => patient_key c <> id) patients) /\
  (forall c : gmap string json, c !! "id" = None -> patient_key c = "None").
Proof.
  split; [| split].
  - intros p. apply find_patient_found.
  - apply find_patient_missing.
  - intros c Hc. unfold patient_key. now rewrite Hc.
Qed.

Lemma pick_first_found (patients : list json) p :
  match patients with
  | q :: _ => ok q
  | [] => raise (Raised "IndexError" "list index out of range")
  end = ok p <-> head patients = Some p.
Proof.
  destruct patients as [| q rest]; cbn [head]; split; intros Hx;
    first [discriminate Hx | injection Hx as ->; reflexivity].
Qed.

Lemma pick_first_missing (patients : list json) :
  match patients with
  | q :: _ => ok q
  | [] => raise (Raised "IndexError" "list index out of range")
  end = raise (Raised "IndexError" "list index out of range") <->
  patients = [].
Proof.
  destruct patients as [| q rest]; split; intros Hx;
    first [reflexivity | discriminate Hx].
Qed.

(** X26. With an [index] and no [patient_id], [pick_patient] returns the
    patient at that position exactly when [0 <= index < len(patients)];
    any other index, a negative one included, raises the ValueError
    showing the index, so an index never counts from the end and never
    gives an IndexError. With neither argument the first patient is
    returned, and only an empty list raises an IndexError. *)
Theorem pick_patient_by_index `{PyRepr} (patients : list json) (i : Z) :
  (forall p,
     pick_patient patients None (Some i) = ok p <->
     0 <= i < Z.of_nat (length patients) /\
     patients !! Z.to_nat i = Some p) /\
  (pick_patient patients None (Some i)
     = raise (ValueError ("index out of range: " +:+ pretty i)) <->
   i < 0 \/ Z.of_nat (length patients) <= i) /\
  (forall e, pick_patient patients None (Some i) = raise e ->
     e = ValueError ("index out of range: " +:+ pretty i)) /\
  (forall p, pick_patient patients None None = ok p <-> head patients = Some p) /\
  (pick_patient patients None None
     = raise (Raised "IndexError" "list index out of range") <->
   patients = []).
Proof.
  unfold pick_patient.
  destruct (Z.ltb_spec i 0) as [Hneg | Hpos]; cbn [orb].
  { repeat match goal with |- _ /\ _ => split end.
    - intros p. split; [discriminate | lia].
    - split; [now left | reflexivity].
    - now intros e [= <-].
    - apply pick_first_found.
    - apply pick_first_missing. }
  destruct (Z.leb_spec (Z.of_nat (length patients)) i) as [Hbig | Hin].
  { repeat match goal with |- _ /\ _ => split end.
    - intros p. split; [discriminate | lia].
    - split; [now right | reflexivity].
    - now intros e [= <-].
    - apply pick_first_found.
    - apply pick_first_missing. }
  destruct (lookup_lt_is_Some_2 patients (Z.to_nat i)) as [q Hq]; [lia |].
  rewrite Hq.
  repeat match goal with |- _ /\ _ => split end.
  - intros p. split.
    + intros [= <-]. split; [lia | reflexivity].
    + now intros [_ [= <-]].
  - split; [discriminate | lia].
  - discriminate.
  - apply pick_first_found.
  - apply pick_first_missing.
Qed.


(** *** From a converted record to the session's intake *)

Lemma nonblank_is_text v :
  PsiToCactus.nonblank_str v = true ->
  exists s, v = JStr s /\ s <> EmptyString /\ falsy v = false.
Proof.
  destruct v as [| | | | s | |]; try discriminate.
  intros Hs. exists s. destruct s; [discriminate Hs |].
  repeat split. discriminate.
Qed.

Lemma falsy_nonempty_dict (m : gmap string json) k v :
  m !! k = Some v -> falsy (JObj m) = false.
Proof.
  intros Hk. cbn [falsy]. apply bool_decide_eq_false. intros ->.
  now rewrite lookup_empty in Hk.
Qed.

Lemma or_else_truthy v fallback : falsy v = false -> or_else v fallback = v.
Proof. intros Hv. unfold or_else. now rewrite Hv. Qed.

Lemma or_else_falsy v fallback :
  falsy v = true -> or_else v fallback = fallback.
Proof. intros Hv. unfold or_else. now rewrite Hv. Qed.

Lemma field_text_at `{PyRepr} (ci : gmap string json) k v :
  ci !! k = Some v -> field_text (JObj ci) k = ok (py_str v).
Proof. intros Hk. unfold field_text, get_or. now rewrite Hk. Qed.

Lemma field_text_absent `{PyRepr} k :
  field_text (JObj ∅) k = ok EmptyString.
Proof. unfold field_text, get_or. now rewrite lookup_empty. Qed.

(** X27. For every record the validator accepts,
    [cactus_to_intake_reason] raises nothing and uses no fallback: the
    intake text shows the record's own name, gender, occupation,
    education, marital status and family details, the age as Python
    prints that number, and the reason returned is the record's own
    non-empty reason. *)
Theorem validated_record_gives_intake `{PyRepr} (m : gmap string json) :
  PsiToCactus._validate_cactus_shape (JObj m) = ok tt ->
  exists im ci name age gender occupation education marital family reason,
    m !! "intake_form" = Some (JObj im) /\
    im !! "client_info" = Some (JObj ci) /\
    ci !! "name" = Some (JStr name) /\
    ci !! "age" = Some age /\ is_number age = true /\
    ci !! "gender" = Some (JStr gender) /\
    ci !! "occupation" = Some (JStr occupation) /\
    ci !! "education" = Some (JStr education) /\
    ci !! "marital_status" = Some (JStr marital) /\
    ci !! "family_details" = Some (JStr family) /\
    im !! "reason_for_seeking_counseling" = Some (JStr reason) /\
    reason <> EmptyString /\
    cactus_to_intake_reason m =
      ok (build_intake_form name (py_str age) gender occupation education
            marital family,
          JStr reason).
Proof.
  intros Hok. apply ValidatorFacts.validates_accepted in Hok.
  destruct Hok as [_ _ (im & ci & Ei & Ec & Hc & _ & Hr & _) _ _].
  unfold PsiToCactus.ci_required in Hc.
  apply ValidatorMore.check_client_info_cons_ok in Hc as (v1 & E1 & H1 & Hc).
  apply ValidatorMore.check_client_info_cons_ok in Hc as (v2 & E2 & H2 & Hc).
  apply ValidatorMore.check_client_info_cons_ok in Hc as (v3 & E3 & H3 & Hc).
  apply ValidatorMore.check_client_info_cons_ok in Hc as (v4 & E4 & H4 & Hc).
  apply ValidatorMore.check_client_info_cons_ok in Hc as (v5 & E5 & H5 & Hc).
  apply ValidatorMore.check_client_info_cons_ok in Hc as (v6 & E6 & H6 & Hc).
  apply ValidatorMore.check_client_info_cons_ok in Hc as (v7 & E7 & H7 & _).
  cbn in H1, H2, H3, H4, H5, H6, H7.
  apply nonblank_is_text in H1 as (name & -> & _ & _).
  apply nonblank_is_text in H3 as (gender & -> & _ & _).
  apply nonblank_is_text in H4 as (occupation & -> & _ & _).
  apply nonblank_is_text in H5 as (education & -> & _ & _).
  apply nonblank_is_text in H6 as (marital & -> & _ & _).
  apply nonblank_is_text in H7 as (family & -> & _ & _).
  unfold PsiToCactus.check_text_field in Hr.
  destruct (im !! "reason_for_seeking_counseling") as [vr |] eqn:Er;
    [| discriminate Hr].
  destruct (PsiToCactus.nonblank_str vr) eqn:Hvr; [| discriminate Hr].
  apply nonblank_is_text in Hvr as (reason & -> & Hne & Hfalsy).
  exists im, ci, name, v2, gender, occupation, education, marital, family,
    reason.
  repeat match goal with |- _ /\ _ => split end; try assumption.
  unfold cactus_to_intake_reason. rewrite Ei. cbn [default from_option id].
  rewrite !(or_else_truthy (JObj im))
    by exact (falsy_nonempty_dict im _ _ Ec).
  unfold get_or at 1. rewrite Ec. cbn [default from_option id bind ok].
  rewrite !(or_else_truthy (JObj ci))
    by exact (falsy_nonempty_dict ci _ _ E1).
  rewrite (field_text_at ci _ _ E1), (field_text_at ci _ _ E2),
    (field_text_at ci _ _ E3), (field_text_at ci _ _ E4),
    (field_text_at ci _ _ E5), (field_text_at ci _ _ E6),
    (field_text_at ci _ _ E7).
  cbn [bind ok py_str].
  unfold get_or. rewrite Er. cbn [default from_option id bind ok].
  rewrite !(or_else_truthy (JStr reason)) by exact Hfalsy.
  now rewrite Hfalsy.
Qed.

Lemma validated_record_gives_intake_witness :
  PsiToCactus._validate_cactus_shape (JObj Records.sample_record) = ok tt /\
  exists im ci name age gender occupation education marital family reason,
    Records.sample_record !! "intake_form" = Some (JObj im) /\
    im !! "client_info" = Some (JObj ci) /\
    ci !! "name" = Some (JStr name) /\
    ci !! "age" = Some age /\ is_number age = true /\
    ci !! "gender" = Some (JStr gender) /\
    ci !! "occupation" = Some (JStr occupation) /\
    ci !! "education" = Some (JStr education) /\
    ci !! "marital_status" = Some (JStr marital) /\
    ci !! "family_details" = Some (JStr family) /\
    im !! "reason_for_seeking_counseling" = Some (JStr reason) /\
    reason <> EmptyString /\
    cactus_to_intake_reason (H := CasesFacts.sample_repr)
      Records.sample_record =
      ok (build_intake_form name (@py_str CasesFacts.sample_repr age) gender occupation education
            marital family,
          JStr reason).
Proof.
  split; [vm_compute; reflexivity |].
  apply (validated_record_gives_intake (H := CasesFacts.sample_repr)
           Records.sample_record).
  vm_compute; reflexivity.
Defined.

Definition empty_intake : string * json :=
  (build_intake_form EmptyString EmptyString EmptyString EmptyString
     EmptyString EmptyString EmptyString,
   JStr "The client seeks counseling support.").

Lemma falsy_empty_dict : falsy (JObj ∅) = true.
Proof. cbn [falsy]. now apply bool_decide_eq_true. Qed.

(** The run once the intake form and the client information are settled,
    for client information that is empty. *)
Lemma intake_without_client_info `{PyRepr} (m : gmap string json) form :
  or_else (default (JObj ∅) (m !! "intake_form")) (JObj ∅) = JObj form ->
  falsy (default (JObj ∅) (form !! "client_info")) = true ->
  falsy (default (JStr EmptyString)
           (form !! "reason_for_seeking_counseling")) = true ->
  cactus_to_intake_reason m = ok empty_intake.
Proof.
  intros Hform Hci Hreason. unfold cactus_to_intake_reason. cbv zeta.
  rewrite !Hform. unfold get_or at 1. cbn [bind ok].
  rewrite !(or_else_falsy _ _ Hci), !field_text_absent. cbn [bind ok].
  unfold get_or. cbn [bind ok].
  rewrite !(or_else_falsy _ _ Hreason). reflexivity.
Qed.

(** X28. What [cactus_to_intake_reason] does with a record it cannot read
    an intake from. When the record has no [intake_form], or one that
    counts as false, every field of the intake text is empty and the
    reason is the stock sentence. The same holds when the [intake_form]
    is an object whose [client_info] and reason are missing or count as
    false. An [intake_form] that counts as true and is no object raises
    the AttributeError of its missing [get]. *)
Theorem unreadable_intake_falls_back `{PyRepr} (m : gmap string json) :
  (falsy (default (JObj ∅) (m !! "intake_form")) = true ->
   cactus_to_intake_reason m = ok empty_intake) /\
  (forall im,
     m !! "intake_form" = Some (JObj im) ->
     falsy (default (JObj ∅) (im !! "client_info")) = true ->
     falsy (default (JStr EmptyString)
              (im !! "reason_for_seeking_counseling")) = true ->
     cactus_to_intake_reason m = ok empty_intake) /\
  (forall v,
     m !! "intake_form" = Some v -> falsy v = false -> is_dict v = false ->
     cactus_to_intake_reason m = raise (no_get v)).
Proof.
  split; [| split].
  - intros Hfalse. apply (intake_without_client_info m ∅).
    + now apply or_else_falsy.
    + rewrite lookup_empty. exact falsy_empty_dict.
    + rewrite lookup_empty. reflexivity.
  - intros im Ei Hci Hreason.
    destruct (falsy (JObj im)) eqn:Him.
    + apply (intake_without_client_info m ∅).
      * rewrite Ei. now apply or_else_falsy.
      * rewrite lookup_empty. exact falsy_empty_dict.
      * rewrite lookup_empty. reflexivity.
    + apply (intake_without_client_info m im); [| exact Hci | exact Hreason].
      rewrite Ei. now apply or_else_truthy.
  - intros v Ei Htrue Hdict. unfold cactus_to_intake_reason.
    rewrite Ei. cbn [default from_option id].
    rewrite !(or_else_truthy v) by exact Htrue.
    destruct v; try reflexivity. discriminate Hdict.
Qed.


Lemma unreadable_intake_falls_back_witness :
  cactus_to_intake_reason (H := CasesFacts.sample_repr) ∅ = ok empty_intake.
Proof.
  destruct (unreadable_intake_falls_back (H := CasesFacts.sample_repr) ∅)
    as (Hnone & _ & _).
  apply Hnone. rewrite lookup_empty. exact falsy_empty_dict.
Defined.

End HelpersFacts.
